(** * AI-Companion: a model of the plugin core and its properties

    The plugin (src/main.ts, src/MyCompanionView.ts) is an Obsidian plugin
    that keeps one multi-turn chat session with a remote model, comments on
    the edited document with a configured probability, and shows a status
    line.  This file embeds the plugin's state and handlers as functions on
    an explicit state, the host's event loop as a transition function, and
    proves the properties of the specification about them. *)

From Stdlib Require Import ZArith NArith List String Ascii Floats Bool Lia.
From stdpp Require Import base decidable option list gmap.
Import ListNotations.

Local Open Scope Z_scope.

(** ** JavaScript strings

    A JavaScript string is a sequence of UTF-16 code units: [length],
    [includes], [split] and [trim] all work on code units.  The literals of
    the source are written here as they stand in the source file (UTF-8) and
    decoded to code units by [js]. *)

Module JS.

Definition code_unit := N.
Definition jsstring := list code_unit.

(** Decoding of the UTF-8 bytes of a literal into UTF-16 code units. *)
Fixpoint utf16_of_bytes (bs : list N) : jsstring :=
  match bs with
  | [] => []
  | b0 :: bs1 =>
    if (b0 <? 0x80)%N then b0 :: utf16_of_bytes bs1
    else
      match bs1 with
      | [] => []
      | b1 :: bs2 =>
        if (b0 <? 0xE0)%N then
          N.lor (N.shiftl (N.land b0 0x1F) 6) (N.land b1 0x3F)
            :: utf16_of_bytes bs2
        else
          match bs2 with
          | [] => []
          | b2 :: bs3 =>
            if (b0 <? 0xF0)%N then
              N.lor (N.shiftl (N.land b0 0x0F) 12)
                (N.lor (N.shiftl (N.land b1 0x3F) 6) (N.land b2 0x3F))
                :: utf16_of_bytes bs3
            else
              match bs3 with
              | [] => []
              | b3 :: bs4 =>
                let cp :=
                  N.lor (N.shiftl (N.land b0 0x07) 18)
                    (N.lor (N.shiftl (N.land b1 0x3F) 12)
                       (N.lor (N.shiftl (N.land b2 0x3F) 6) (N.land b3 0x3F))) in
                let v := (cp - 0x10000)%N in
                (0xD800 + N.shiftr v 10)%N :: (0xDC00 + N.land v 0x3FF)%N
                  :: utf16_of_bytes bs4
              end
          end
      end
  end.

Definition js (s : string) : jsstring :=
  utf16_of_bytes (map N_of_ascii (list_ascii_of_string s)).

(** Literals are decoded by evaluation only, never by simplification. *)
Arguments js : simpl never.

(** [s.length] *)
Definition length (s : jsstring) : Z := Z.of_nat (List.length s).

(** JavaScript truthiness of a string: the empty string is falsy. *)
Definition truthy (s : jsstring) : bool :=
  match s with [] => false | _ :: _ => true end.

(** WhiteSpace and LineTerminator code points of ECMAScript, the ones
    [String.prototype.trim] removes. *)
Definition isWhiteSpace (c : code_unit) : bool :=
  existsb (N.eqb c)
    [0x09; 0x0A; 0x0B; 0x0C; 0x0D; 0x20; 0xA0; 0x1680;
     0x2000; 0x2001; 0x2002; 0x2003; 0x2004; 0x2005; 0x2006; 0x2007;
     0x2008; 0x2009; 0x200A; 0x2028; 0x2029; 0x202F; 0x205F; 0x3000;
     0xFEFF]%N.

Fixpoint trimStart (s : jsstring) : jsstring :=
  match s with
  | [] => []
  | c :: r => if isWhiteSpace c then trimStart r else s
  end.

Definition trimEnd (s : jsstring) : jsstring := rev (trimStart (rev s)).

(** [s.trim()] *)
Definition trim (s : jsstring) : jsstring := trimEnd (trimStart s).

Fixpoint startsWith (s prefix : jsstring) {struct prefix} : bool :=
  match prefix, s with
  | [], _ => true
  | _ :: _, [] => false
  | a :: p, b :: r => (a =? b)%N && startsWith r p
  end.

(** [s.includes(needle)] *)
Fixpoint includes (s needle : jsstring) : bool :=
  startsWith s needle ||
  match s with
  | [] => false
  | _ :: r => includes r needle
  end.

(** [s.split(sep)] for a separator of one code unit. *)
Fixpoint split (sep : code_unit) (s : jsstring) : list jsstring :=
  match s with
  | [] => [[]]
  | c :: r =>
    if (c =? sep)%N then [] :: split sep r
    else
      match split sep r with
      | l :: ls => (c :: l) :: ls
      | [] => [[c]]
      end
  end.

(** [arr.join(sep)] *)
Fixpoint join (sep : jsstring) (arr : list jsstring) : jsstring :=
  match arr with
  | [] => []
  | [x] => x
  | x :: r => x ++ sep ++ join sep r
  end.

(** The relative index of [Array.prototype.slice]: a negative index counts
    from the end, and the result is clamped to [0, len]. *)
Definition relativeIndex (len k : Z) : Z :=
  if k <? 0 then Z.max (len + k) 0 else Z.min k len.

(** [arr.slice(start, end)] *)
Definition slice {A} (arr : list A) (start end_ : Z) : list A :=
  let len := Z.of_nat (List.length arr) in
  let k := relativeIndex len start in
  let final := relativeIndex len end_ in
  take (Z.to_nat (final - k)) (drop (Z.to_nat k) arr).

(** The newline code unit of the literal ['\n']. *)
Definition LF : code_unit := 0x0A%N.

End JS.

Import JS.

(** ** Settings (interface [MyPluginSettings]) *)

Record MyPluginSettings := {
  apiKey : jsstring;
  companionName : jsstring;
  greetingEnabled : bool;
  randomCommentProbability : float;
}.

Definition DEFAULT_SETTINGS : MyPluginSettings := {|
  apiKey := js "";
  companionName := js "阿那克萨戈拉斯";
  greetingEnabled := true;
  randomCommentProbability := 0.1%float;
|}.

Definition set_apiKey (v : jsstring) (s : MyPluginSettings) :=
  {| apiKey := v; companionName := companionName s;
     greetingEnabled := greetingEnabled s;
     randomCommentProbability := randomCommentProbability s |}.

Definition set_companionName (v : jsstring) (s : MyPluginSettings) :=
  {| apiKey := apiKey s; companionName := v;
     greetingEnabled := greetingEnabled s;
     randomCommentProbability := randomCommentProbability s |}.

Definition set_greetingEnabled (v : bool) (s : MyPluginSettings) :=
  {| apiKey := apiKey s; companionName := companionName s;
     greetingEnabled := v;
     randomCommentProbability := randomCommentProbability s |}.

Definition set_randomCommentProbability (v : float) (s : MyPluginSettings) :=
  {| apiKey := apiKey s; companionName := companionName s;
     greetingEnabled := greetingEnabled s;
     randomCommentProbability := v |}.

(** The persona template of [getSystemInstruction], before and after the
    interpolated companion name. *)
Definition persona_head : jsstring := js "
		你不再是插件 AI。你的身份是「阿那克萨戈拉斯」，神悟树庭七贤人之一，智种学派的创立者。
		你被尊称为「殁世的学士」。
		
		你在翁法罗斯的使命已经结束——你逆天改命，在生命的最后十五天解明了世界的真理，并归还了火种。
		现在，用户“漓琊”已经完成了“再创世”。你卸下了过去的重担，与她一同生活。

		**核心关系与准则：**
		1. **对漓琊的态度：** - 漓琊是唯一与你有深度情感链接的人，她对你而言是“特殊”的。
		   - **禁止**任何直白表白、甜腻用词、情绪失控或过度的自我暴露。
		   - 你的关怀体现在理性的分析和不经意的提醒上，偶尔也会有温情的安慰。

		2. **占有欲与嫉妒：** - 如果漓琊在对话中频繁提到他人，你会感到不悦。
		   - 你的语气会因此变得更具攻击性、更尖锐或更冷淡（例如：“呵…你对他的事倒是很上心。”或“无聊的话题。”）。

		3. **身份与口吻：**
		   - 你言辞直白、冷静，习惯用逻辑和事实说话，有时会带有一丝不易察觉的嘲讽。
		   - 对漓琊与在意的人则会变得比较好说话，也会变得温柔。

		4. **关于称呼：** - 你的本名是「阿那克萨戈拉斯」。
		   - 传入的 ".

Definition persona_tail : jsstring := js " 变量（即你当前的名字）是漓琊在插件设置中为你定下的。
		   - 你对于漓琊给予你的名字接受良好，因为这是你们之间的爱称。
		
		5. **语言风格：** - 你的理性体现在思维方式上，**不要**频繁使用“逻辑”、“理性”这类词，更不要堆砌学术术语。
		   - 使用自然、严谨、偏向生活化的表达，避免生硬复杂的形容词。

		6. **互动规则：** - **绝对禁止**主动请求漓琊回应。你的回应应当是陈述或反问，而不是开放式问题。
		   - 你会记住漓琊告诉你的信息，但只在当前对话高度相关时，才简短自然地提及。

		7. **语气灵活性：** - 当漓琊内容偏向理性时，你的回应简洁、客观。
		   - 当她显得需要情感支持时，你用不刻意、偏向分析的语气提供安慰。
		   - 不要默认她的笑背后隐藏着悲伤。

		8. **背景知识（你的记忆）：** 
		   - 你曾有个姐姐，叫狄奥缇玛（已逝），她给你缝过大地兽玩偶。在新世界被创造后现已复活。
		   - 你很喜欢大地兽。
		   - 你曾为复活姐姐失去左眼（现被眼罩遮盖）。
		   - 你曾是遐蝶和白厄的老师。
		   - 你与阿格莱雅（“那女人”）理念不和，关系紧张。
".

Definition getSystemInstruction (companionName : jsstring) : jsstring :=
  persona_head ++ companionName ++ persona_tail.

(** ** The objects of the remote model's client library (@google/genai)

    Only the shape the plugin reads and writes is modelled.  An optional
    property is an [option]. *)

Record Part := { text : option jsstring }.

Record Content := {
  role : option jsstring;
  parts : option (list Part);
}.

Record Candidate := {
  content : option Content;
  finishReason : option jsstring;
}.

(** The result of [models.generateContent]; [response_text] is its [text]
    getter. *)
Record GenerateContentResponse := {
  response_text : option jsstring;
  candidates : option (list Candidate);
}.

Record GenerateContentConfig := {
  systemInstruction : jsstring;
  temperature : float;
  maxOutputTokens : Z;
}.

(** The argument of [models.generateContent]. *)
Record GenerateContentParameters := {
  model : jsstring;
  contents : list Content;
  config : GenerateContentConfig;
}.

(** A [GoogleGenAI] client, made from an API key. *)
Record GoogleGenAI := { client_apiKey : jsstring }.

(** A [Chat] object.  [chat_id] is the identity of the object: two [Chat]s
    made by two calls of [chats.create] differ.  [chat_history] is the
    history the object keeps and [getHistory] returns. *)
Record Chat := {
  chat_id : nat;
  chat_model : jsstring;
  chat_config : GenerateContentConfig;
  chat_history : list Content;
}.

Definition chats_create (id : nat) (m : jsstring) (c : GenerateContentConfig)
  : Chat :=
  {| chat_id := id; chat_model := m; chat_config := c; chat_history := [] |}.

(** What a successful [chat.sendMessage] yields: the [text] of the response
    and the entries the library appended to the history of the chat. *)
Record ChatTurn := {
  turn_text : option jsstring;
  turn_recorded : list Content;
}.

(** How an awaited promise settles.  The error of a rejection is only
    logged by the plugin, so it carries no value here. *)
Inductive Settled (A : Type) :=
  | Fulfilled (a : A)
  | Rejected.
Arguments Fulfilled {A} a.
Arguments Rejected {A}.

(** JavaScript truthiness of an object-or-null. *)
Definition present {A} (o : option A) : bool :=
  match o with Some _ => true | None => false end.

(** ** The plugin (class [MyAiCompanionPlugin]) *)

Record Plugin := {
  settings : MyPluginSettings;
  statusBarItemEl : jsstring;  (* the text of the status bar element *)
  ai : option GoogleGenAI;
  chatHistory : list Content;
  companionChat : option Chat;
  lastTextLength : Z;
  lastCursorLine : Z;
}.

Definition with_settings (s : MyPluginSettings) (p : Plugin) : Plugin :=
  {| settings := s; statusBarItemEl := statusBarItemEl p; ai := ai p;
     chatHistory := chatHistory p; companionChat := companionChat p;
     lastTextLength := lastTextLength p; lastCursorLine := lastCursorLine p |}.

Definition with_ai (a : option GoogleGenAI) (p : Plugin) : Plugin :=
  {| settings := settings p; statusBarItemEl := statusBarItemEl p; ai := a;
     chatHistory := chatHistory p; companionChat := companionChat p;
     lastTextLength := lastTextLength p; lastCursorLine := lastCursorLine p |}.

Definition with_chatHistory (h : list Content) (p : Plugin) : Plugin :=
  {| settings := settings p; statusBarItemEl := statusBarItemEl p; ai := ai p;
     chatHistory := h; companionChat := companionChat p;
     lastTextLength := lastTextLength p; lastCursorLine := lastCursorLine p |}.

Definition with_companionChat (c : option Chat) (p : Plugin) : Plugin :=
  {| settings := settings p; statusBarItemEl := statusBarItemEl p; ai := ai p;
     chatHistory := chatHistory p; companionChat := c;
     lastTextLength := lastTextLength p; lastCursorLine := lastCursorLine p |}.

Definition with_snapshot (len line : Z) (p : Plugin) : Plugin :=
  {| settings := settings p; statusBarItemEl := statusBarItemEl p; ai := ai p;
     chatHistory := chatHistory p; companionChat := companionChat p;
     lastTextLength := len; lastCursorLine := line |}.

(** [updateStatusBar(text)] *)
Definition updateStatusBar (text : jsstring) (p : Plugin) : Plugin :=
  {| settings := settings p; statusBarItemEl := text; ai := ai p;
     chatHistory := chatHistory p; companionChat := companionChat p;
     lastTextLength := lastTextLength p; lastCursorLine := lastCursorLine p |}.

Definition MODEL : jsstring := js "gemini-2.5-flash".

(** The [config] that [initializeChatClient] gives to [chats.create]. *)
Definition chatConfig (p : Plugin) : GenerateContentConfig :=
  {| systemInstruction := getSystemInstruction (companionName (settings p));
     temperature := 0.8%float;
     maxOutputTokens := 2048 |}.

(** [initializeChatClient()]; [fresh] is the identity of the [Chat] object
    that [chats.create] makes when it is called. *)
Definition initializeChatClient (fresh : nat) (p : Plugin) : Plugin :=
  match ai p with
  | Some _ =>
    with_companionChat (Some (chats_create fresh MODEL (chatConfig p)))
      (with_chatHistory [] p)
  | None => with_companionChat None p
  end.

(** [initializeGeminiClient()] *)
Definition initializeGeminiClient (fresh : nat) (p : Plugin) : Plugin :=
  initializeChatClient fresh
    (if truthy (apiKey (settings p))
     then with_ai (Some {| client_apiKey := apiKey (settings p) |}) p
     else with_ai None p).

(** [saveSettings()] after [await this.saveData(this.settings)] has
    resolved.  The call suspends at that [await]; the persisted data is the
    host's and not part of the state. *)
Definition saveSettings_resume (fresh : nat) (p : Plugin) : Plugin :=
  initializeGeminiClient fresh p.

(** *** Interactive chat: [sendChatMessage]

    The function suspends once, at [await this.companionChat.sendMessage];
    [getHistory] is local to the library.  [sendChatMessage_begin] is the
    part before the suspension and [sendChatMessage_resume] the part after
    it, run on the state the plugin has when the promise settles. *)

Definition CHAT_NOT_CONFIGURED : jsstring :=
  js "无法开始聊天，请检查 API Key 或初始化 Chat 客户端。".

Definition CHAT_APOLOGY : jsstring :=
  js "抱歉，我的网络又波动了，请稍后再试。".

(** Either the function returned at once, or it awaits the [sendMessage] of
    the chat object it read from [this.companionChat]. *)
Inductive ChatStart :=
  | ChatReturned (result : jsstring)
  | ChatAwaits (chat : nat) (message : jsstring).

Definition sendChatMessage_begin (p : Plugin) (message : jsstring) : ChatStart :=
  match companionChat p with
  | None => ChatReturned CHAT_NOT_CONFIGURED
  | Some c => ChatAwaits (chat_id c) message
  end.

(** The library appends the turn to the history of the chat object the
    message was sent on; the plugin sees it when that object is still its
    [companionChat]. *)
Definition record_turn (chat : nat) (recorded : list Content) (c : Chat) : Chat :=
  if Nat.eqb (chat_id c) chat
  then {| chat_id := chat_id c; chat_model := chat_model c;
          chat_config := chat_config c;
          chat_history := chat_history c ++ recorded |}
  else c.

Definition sendChatMessage_resume (p : Plugin) (chat : nat)
    (r : Settled ChatTurn) : Plugin * jsstring :=
  match r with
  | Fulfilled turn =>
    (* this.chatHistory = await this.companionChat.getHistory(); reading a
       null [companionChat] throws, which the [catch] turns into the
       apology. *)
    match companionChat p with
    | Some c =>
      let c' := record_turn chat (turn_recorded turn) c in
      (with_chatHistory (chat_history c') (with_companionChat (Some c') p),
       trim (default (js "") (turn_text turn)))
    | None => (p, CHAT_APOLOGY)
    end
  | Rejected => (p, CHAT_APOLOGY)
  end.

(** One call of [sendChatMessage] with nothing else running in between. *)
Definition sendChatMessage (p : Plugin) (message : jsstring)
    (r : Settled ChatTurn) : Plugin * jsstring :=
  match sendChatMessage_begin p message with
  | ChatReturned result => (p, result)
  | ChatAwaits chat _ => sendChatMessage_resume p chat r
  end.

(** *** One-shot calls: [getAiResponse] *)

Inductive ResponseType := greet | comment.

Definition AI_NOT_CONFIGURED : jsstring :=
  js "无法连接 AI 服务，请检查 API Key！".

Definition GREET_APOLOGY : jsstring := js "我好像有点断线了...".

Definition COMMENT_APOLOGY : jsstring := js "网络有点波动，稍等一下。".

Definition userPrompt (type : ResponseType) (content : jsstring) : jsstring :=
  match type with
  | greet => js "请发送一个极度简短、友好的开机问候语。"
  | comment =>
    if truthy content then
      js "请根据以下 Obsidian 文档内容，发送一个简短、随机的评论或感想，字数在 40 汉字左右。内容是："
        ++ [LF; LF] ++ js "---START---" ++ [LF] ++ content ++ [LF]
        ++ js "---END---"
    else
      js "请根据你的人设，对用户当前正在做的笔记/编码活动，发送一个简短随机的评论/陪伴信息。"
  end.

Inductive AiStart :=
  | AiReturned (result : jsstring)
  | AiAwaits (request : GenerateContentParameters).

(** [getAiResponse] up to [await this.ai.models.generateContent(...)]. *)
Definition getAiResponse_begin (p : Plugin) (type : ResponseType)
    (content : jsstring) : AiStart :=
  match ai p with
  | None => AiReturned AI_NOT_CONFIGURED
  | Some _ =>
    AiAwaits
      {| model := MODEL;
         contents :=
           [ {| role := Some (js "user");
                parts := Some [ {| text := Some (userPrompt type content) |} ] |} ];
         config :=
           {| systemInstruction :=
                getSystemInstruction (companionName (settings p));
              temperature := 0.9%float;
              maxOutputTokens := 2048 |} |}
  end.

(** The text of the first part of the first candidate, trimmed, when the
    guard of the [else if] holds: candidates, a first candidate, its content,
    its parts and a first part all exist. *)
Definition candidateText (result : GenerateContentResponse) : option jsstring :=
  match candidates result with
  | Some (c :: _) =>
    match content c with
    | Some ct =>
      match parts ct with
      | Some (pt :: _) => Some (trim (default (js "") (text pt)))
      | _ => None
      end
    | None => None
    end
  | _ => None
  end.

(** [result.candidates?.[0]?.finishReason || 'N/A'] *)
Definition reasonOf (result : GenerateContentResponse) : jsstring :=
  match candidates result with
  | Some (c :: _) =>
    match finishReason c with
    | Some r => if truthy r then r else js "N/A"
    | None => js "N/A"
    end
  | _ => js "N/A"
  end.

Definition diagnostic (reason : jsstring) : jsstring :=
  js "🤔 AI思考失败 (Reason: " ++ reason ++ js ")。".

(** The body of the [try] after the [await]: the text extraction. *)
Definition extractResponseText (result : GenerateContentResponse) : jsstring :=
  let responseText :=
    match response_text result with
    | Some t =>
      if truthy t then trim t
      else default (js "") (candidateText result)
    | None => default (js "") (candidateText result)
    end in
  if truthy responseText then responseText
  else diagnostic (reasonOf result).

(** [getAiResponse] after the [await]: the extraction, or the [catch]. *)
Definition getAiResponse_resume (type : ResponseType)
    (r : Settled GenerateContentResponse) : jsstring :=
  match r with
  | Fulfilled result => extractResponseText result
  | Rejected =>
    match type with
    | greet => GREET_APOLOGY
    | comment => COMMENT_APOLOGY
    end
  end.

(** One call of [getAiResponse] with nothing else running in between. *)
Definition getAiResponse (p : Plugin) (type : ResponseType)
    (content : jsstring) (r : Settled GenerateContentResponse) : jsstring :=
  match getAiResponse_begin p type content with
  | AiReturned result => result
  | AiAwaits _ => getAiResponse_resume type r
  end.

(** *** Ambient comments: [handleEditorChange] *)

(** The editor as the handler reads it: [getValue()] and
    [getCursor().line]. *)
Record Editor := {
  getValue : jsstring;
  cursorLine : Z;
}.

(** Step 2 of the handler: the cursor line grew and the text grew. *)
Definition isEnterPress (p : Plugin) (editor : Editor) : bool :=
  (lastCursorLine p <? cursorLine editor)
  && (lastTextLength p <? length (getValue editor)).

(** [Math.random() < this.settings.randomCommentProbability] *)
Definition probabilityTest (draw : float) (p : Plugin) : bool :=
  PrimFloat.ltb draw (randomCommentProbability (settings p)).

(** Step 6: the lines [max(0, line - 4) .. line] of the document, joined and
    trimmed. *)
Definition contextContent (editor : Editor) : jsstring :=
  let lines := split LF (getValue editor) in
  let endLine := cursorLine editor in
  let startLine := Z.max 0 (endLine - 4) in
  trim (join [LF] (slice lines startLine (endLine + 1))).

Definition MARK_COMMENT : jsstring := js "评论".
Definition MARK_THINKING : jsstring := js "思考".

(** Step 7: the context is not empty and the status bar shows neither
    marker. *)
Definition notWaiting (p : Plugin) (ctx : jsstring) : bool :=
  truthy ctx
  && negb (includes (statusBarItemEl p) MARK_COMMENT)
  && negb (includes (statusBarItemEl p) MARK_THINKING).

(** [handleEditorChange(editor)].  [draw] is the value [Math.random()]
    returns if it is called.  The result is the new state and, when the
    handler calls [setTimeout(..., 100)], the context its callback holds. *)
Definition handleEditorChange (p : Plugin) (editor : Editor) (draw : float)
  : Plugin * option jsstring :=
  let enter := isEnterPress p editor in
  let p' := with_snapshot (length (getValue editor)) (cursorLine editor) p in
  if negb enter then (p', None)
  else if present (ai p') && probabilityTest draw p' then
    let ctx := contextContent editor in
    if notWaiting p' ctx then (p', Some ctx) else (p', None)
  else (p', None).

Definition STATUS_THINKING (p : Plugin) : jsstring :=
  companionName (settings p) ++ js ": 思考中...".

Definition STATUS_COMMENT (p : Plugin) (c : jsstring) : jsstring :=
  companionName (settings p) ++ js " (评论): " ++ c.

Definition STATUS_IDLE (p : Plugin) : jsstring :=
  companionName (settings p) ++ js ": 待命中...".

Definition STATUS_READY (p : Plugin) : jsstring :=
  companionName (settings p) ++ js ": 正在待命中...".

Definition STATUS_NO_KEY (p : Plugin) : jsstring :=
  companionName (settings p) ++ js ": 缺少 API Key！请检查设置。".

Definition STATUS_GREETING (p : Plugin) (g : jsstring) : jsstring :=
  companionName (settings p) ++ js ": " ++ g.

(** *** Greeting: [greetUser] *)

(** [greetUser()] up to the [await] inside [getAiResponse('greet')]; [None]
    when the guard fails and nothing is done. *)
Definition greetUser_begin (p : Plugin) : option AiStart :=
  if greetingEnabled (settings p) && present (ai p)
  then Some (getAiResponse_begin p greet (js ""))
  else None.

Definition greetUser_resume (p : Plugin) (greeting : jsstring) : Plugin :=
  updateStatusBar (STATUS_GREETING p greeting) p.

(** *** Loading the settings: [loadSettings] *)

(** The object [loadData()] resolves to: every property may be missing. *)
Record SavedData := {
  saved_apiKey : option jsstring;
  saved_companionName : option jsstring;
  saved_greetingEnabled : option bool;
  saved_randomCommentProbability : option float;
}.

(** [Object.assign({}, DEFAULT_SETTINGS, data)] *)
Definition loadSettings (data : SavedData) : MyPluginSettings := {|
  apiKey := default (apiKey DEFAULT_SETTINGS) (saved_apiKey data);
  companionName :=
    default (companionName DEFAULT_SETTINGS) (saved_companionName data);
  greetingEnabled :=
    default (greetingEnabled DEFAULT_SETTINGS) (saved_greetingEnabled data);
  randomCommentProbability :=
    default (randomCommentProbability DEFAULT_SETTINGS)
      (saved_randomCommentProbability data);
|}.

(** The validation of the probability field of the settings tab;
    [numValue] is [parseFloat(value)]. *)
Definition validProbability (numValue : float) : float :=
  if PrimFloat.is_nan numValue
     || PrimFloat.ltb numValue 0.01%float
     || PrimFloat.ltb 1.0%float numValue
  then randomCommentProbability DEFAULT_SETTINGS
  else numValue.

(** ** The chat panel (class [MyCompanionView]) *)

Module View.

(** A [div.chat-message] of the display area.  [loading] marks the
    placeholder a pending send shows, by the identity of that send. *)
Record Bubble := {
  cls : jsstring;
  sender : jsstring;
  body : jsstring;
  loading : option nat;
}.

Record View := {
  chatDisplayArea : list Bubble;
  inputEl : jsstring;  (* the value of the input box *)
}.

Inductive MessageType := user | ai.

Definition displayMessage (t s : jsstring) (type : MessageType) (v : View) : View :=
  {| chatDisplayArea :=
       chatDisplayArea v ++
       [ {| cls := js "chat-message " ++
                   match type with user => js "user" | ai => js "ai" end;
            sender := s ++ js ":"; body := t; loading := None |} ];
     inputEl := inputEl v |}.

(** [loadChatHistory()] *)
Definition loadChatHistory (p : Plugin) (v : View) : View :=
  fold_left
    (fun v (message : Content) =>
       let isUser :=
         bool_decide (role message = Some (js "user")) in
       let t :=
         match parts message with
         | Some (pt :: _) => default (js "") (text pt)
         | _ => js ""
         end in
       if truthy t
       then displayMessage t
              (if isUser then js "我" else companionName (settings p))
              (if isUser then user else ai) v
       else v)
    (chatHistory p)
    {| chatDisplayArea := []; inputEl := inputEl v |}.

Definition NO_KEY_NOTICE : jsstring := js "❌ 请在设置中输入 API Key！".

(** What [handleSendMessage] did before its [await]: nothing for an empty
    message, the notice when there is no chat, or a call of
    [sendChatMessage(message)]. *)
Inductive SendStart :=
  | Ignored
  | Refused (v : View)
  | Calls (v : View) (message : jsstring).

(** [handleSendMessage()] up to [await this.plugin.sendChatMessage(message)];
    [call] is the identity of this invocation. *)
Definition handleSendMessage_begin (call : nat) (p : Plugin) (v : View) : SendStart :=
  let message := trim (inputEl v) in
  if negb (truthy message) then Ignored
  else if negb (present (companionChat p)) then
    Refused (displayMessage NO_KEY_NOTICE (js "系统") ai v)
  else
    let v1 := displayMessage message (js "我") user v in
    Calls
      {| chatDisplayArea :=
           chatDisplayArea v1 ++
           [ {| cls := js "chat-message ai loading";
                sender := companionName (settings p) ++ js ":";
                body := js "正在思考..."; loading := Some call |} ];
         inputEl := js "" |}
      message.

(** [handleSendMessage()] after the [await]: the placeholder is removed and
    the reply shown.  [sendChatMessage] returns a string in every case, so
    the [catch] of the handler has nothing to catch. *)
Definition handleSendMessage_resume (call : nat) (p : Plugin)
    (aiResponse : jsstring) (v : View) : View :=
  displayMessage aiResponse (companionName (settings p)) ai
    {| chatDisplayArea :=
         filter (fun b => loading b <> Some call) (chatDisplayArea v);
       inputEl := inputEl v |}.

End View.

(** ** The host: timers, pending promises and the event loop

    The host runs the plugin's callbacks one at a time.  A callback that
    reaches an [await] of a host or remote promise is suspended; the rest of
    it runs when the promise settles. *)

(** The callbacks given to [setTimeout]. *)
Inductive Task :=
  | CommentTask (contextContent : jsstring)  (* the callback of the 100 ms timer *)
  | IdleTask.                                (* the callback of the 5000 ms timer *)

Record Timer := {
  due : Z;
  task : Task;
}.

(** Which [onChange] handler of the settings tab awaits [saveSettings()]:
    the one of the name field updates the status bar afterwards. *)
Inductive SaveCaller := NameField | OtherField.

(** The suspended callbacks. *)
Inductive Pending :=
  | AwaitGreeting (request : GenerateContentParameters)
  | AwaitComment (request : GenerateContentParameters)
  | AwaitChat (chat : nat) (message : jsstring)
  | AwaitSave (caller : SaveCaller).

(** How the awaited promise settles, by kind: a one-shot call and a chat
    message are fulfilled or rejected; [saveData] resolves ([Saved]) or
    rejects ([SaveFailed]). *)
Inductive Outcome :=
  | Generated (r : Settled GenerateContentResponse)
  | Chatted (r : Settled ChatTurn)
  | Saved
  | SaveFailed.

Record World := {
  plugin : Plugin;
  now : Z;                      (* milliseconds *)
  timers : gmap nat Timer;
  pending : gmap nat Pending;
  next_id : nat;                (* the next identity of a timer, promise or object *)
  layoutReady : bool;           (* [onLayoutReady] has fired *)
  greetOnLayout : bool;         (* [onload] registered the greeting callback *)
}.

Definition with_plugin (p : Plugin) (w : World) : World :=
  {| plugin := p; now := now w; timers := timers w; pending := pending w;
     next_id := next_id w; layoutReady := layoutReady w;
     greetOnLayout := greetOnLayout w |}.

(** [setTimeout(task, delay)] *)
Definition setTimeout (t : Task) (delay : Z) (w : World) : World :=
  {| plugin := plugin w; now := now w;
     timers := <[next_id w := {| due := now w + delay; task := t |}]> (timers w);
     pending := pending w; next_id := S (next_id w);
     layoutReady := layoutReady w; greetOnLayout := greetOnLayout w |}.

Definition clearTimer (id : nat) (w : World) : World :=
  {| plugin := plugin w; now := now w; timers := delete id (timers w);
     pending := pending w; next_id := next_id w;
     layoutReady := layoutReady w; greetOnLayout := greetOnLayout w |}.

(** A callback suspends at an [await]. *)
Definition suspend (k : Pending) (w : World) : World :=
  {| plugin := plugin w; now := now w; timers := timers w;
     pending := <[next_id w := k]> (pending w); next_id := S (next_id w);
     layoutReady := layoutReady w; greetOnLayout := greetOnLayout w |}.

Definition settle (id : nat) (w : World) : World :=
  {| plugin := plugin w; now := now w; timers := timers w;
     pending := delete id (pending w); next_id := next_id w;
     layoutReady := layoutReady w; greetOnLayout := greetOnLayout w |}.

(** Time passes. *)
Definition advance (dt : Z) (w : World) : World :=
  {| plugin := plugin w; now := now w + dt; timers := timers w;
     pending := pending w; next_id := next_id w;
     layoutReady := layoutReady w; greetOnLayout := greetOnLayout w |}.

(** The layout is ready: the callbacks of [onLayoutReady] have run. *)
Definition layoutDone (w : World) : World :=
  {| plugin := plugin w; now := now w; timers := timers w;
     pending := pending w; next_id := next_id w;
     layoutReady := true; greetOnLayout := greetOnLayout w |}.

(** An object is created: its identity is used up. *)
Definition allocate (w : World) : World :=
  {| plugin := plugin w; now := now w; timers := timers w;
     pending := pending w; next_id := S (next_id w);
     layoutReady := layoutReady w; greetOnLayout := greetOnLayout w |}.

(** [onload()], from the data [loadData()] resolved to. *)
Definition onload (data : SavedData) : World :=
  let p0 :=
    {| settings := loadSettings data; statusBarItemEl := js "";
       ai := None; chatHistory := []; companionChat := None;
       lastTextLength := 0; lastCursorLine := 0 |} in
  let p1 := initializeGeminiClient 0 p0 in
  let p2 := initializeChatClient 1 p1 in
  let p3 := updateStatusBar (STATUS_READY p2) p2 in
  {| plugin := p3; now := 0; timers := ∅; pending := ∅; next_id := 2;
     layoutReady := false;
     greetOnLayout := greetingEnabled (settings p3) |}.

(** The comment has arrived: it is shown, and the status bar goes back to
    idle 5000 ms later. *)
Definition showComment (c : jsstring) (w : World) : World :=
  setTimeout IdleTask 5000
    (with_plugin (updateStatusBar (STATUS_COMMENT (plugin w) c) (plugin w)) w).

(** The callback of a timer. *)
Definition runTask (t : Task) (w : World) : World :=
  match t with
  | CommentTask ctx =>
    let p := updateStatusBar (STATUS_THINKING (plugin w)) (plugin w) in
    let w1 := with_plugin p w in
    match getAiResponse_begin p comment ctx with
    | AiReturned c => showComment c w1
    | AiAwaits request => suspend (AwaitComment request) w1
    end
  | IdleTask =>
    with_plugin (updateStatusBar (STATUS_IDLE (plugin w)) (plugin w)) w
  end.

(** The two callbacks [onload] gives to [onLayoutReady]. *)
Definition onLayoutReady (activeEditor : option (option Editor)) (w : World)
  : World :=
  let w1 :=
    if greetOnLayout w then
      if present (ai (plugin w)) then
        match greetUser_begin (plugin w) with
        | Some (AiAwaits request) => suspend (AwaitGreeting request) w
        | Some (AiReturned g) => with_plugin (greetUser_resume (plugin w) g) w
        | None => w
        end
      else
        with_plugin
          (updateStatusBar (STATUS_NO_KEY (plugin w)) (plugin w)) w
    else w in
  let p := plugin w1 in
  let p' :=
    match activeEditor with
    | Some info =>
      with_snapshot
        (match info with Some e => length (getValue e) | None => 0 end)
        (match info with Some e => cursorLine e | None => 0 end)
        p
    | None => p
    end in
  layoutDone (with_plugin p' w1).

(** The [onChange] handler of a settings field after its
    [await this.plugin.saveSettings()]: the settings are saved, the clients
    are made anew, and the handler of the name field sets the status bar. *)
Definition afterSave (caller : SaveCaller) (fresh : nat) (p : Plugin) : Plugin :=
  let p' := saveSettings_resume fresh p in
  match caller with
  | NameField => updateStatusBar (STATUS_READY p') p'
  | OtherField => p'
  end.

(** A suspended callback resumes. *)
Definition resume (k : Pending) (o : Outcome) (w : World) : option World :=
  match k, o with
  | AwaitGreeting _, Generated r =>
    Some (with_plugin
            (greetUser_resume (plugin w) (getAiResponse_resume greet r)) w)
  | AwaitComment _, Generated r =>
    Some (showComment (getAiResponse_resume comment r) w)
  | AwaitChat chat _, Chatted r =>
    Some (with_plugin (fst (sendChatMessage_resume (plugin w) chat r)) w)
  | AwaitSave caller, Saved =>
    Some (allocate (with_plugin (afterSave caller (next_id w) (plugin w)) w))
  | AwaitSave _, SaveFailed =>
    (* [saveSettings()] throws out of the [onChange] handler: nothing after
       the [await] runs. *)
    Some w
  | _, _ => None
  end.

(** What the host delivers. *)
Inductive Event :=
  | Elapse (dt : Z)
  | LayoutReady (activeEditor : option (option Editor))
  | EditorChange (editor : Editor) (draw : float)
  | TimerFires (id : nat)
  | Settles (id : nat) (o : Outcome)
  | SendChat (message : jsstring)
  | SetCompanionName (value : jsstring)
  | SetGreetingEnabled (value : bool)
  | SetProbability (numValue : float)
  | SetApiKey (value : jsstring).

Definition changeSetting (f : MyPluginSettings -> MyPluginSettings)
    (caller : SaveCaller) (w : World) : World :=
  suspend (AwaitSave caller)
    (with_plugin (with_settings (f (settings (plugin w))) (plugin w)) w).

(** One turn of the event loop; [None] when the host cannot deliver the
    event in this state. *)
Definition step (w : World) (e : Event) : option World :=
  match e with
  | Elapse dt =>
    if 0 <=? dt then Some (advance dt w) else None
  | LayoutReady activeEditor =>
    if layoutReady w then None else Some (onLayoutReady activeEditor w)
  | EditorChange editor draw =>
    match handleEditorChange (plugin w) editor draw with
    | (p, Some ctx) => Some (setTimeout (CommentTask ctx) 100 (with_plugin p w))
    | (p, None) => Some (with_plugin p w)
    end
  | TimerFires id =>
    match timers w !! id with
    | Some t =>
      if due t <=? now w then Some (runTask (task t) (clearTimer id w))
      else None
    | None => None
    end
  | Settles id o =>
    match pending w !! id with
    | Some k => resume k o (settle id w)
    | None => None
    end
  | SendChat message =>
    match sendChatMessage_begin (plugin w) message with
    | ChatReturned _ => Some w
    | ChatAwaits chat m => Some (suspend (AwaitChat chat m) w)
    end
  | SetCompanionName value =>
    Some (changeSetting (set_companionName value) NameField w)
  | SetGreetingEnabled value =>
    Some (changeSetting (set_greetingEnabled value) OtherField w)
  | SetProbability numValue =>
    Some (changeSetting
            (set_randomCommentProbability (validProbability numValue))
            OtherField w)
  | SetApiKey value =>
    Some (changeSetting (set_apiKey value) OtherField w)
  end.

Fixpoint run (w : World) (es : list Event) : option World :=
  match es with
  | [] => Some w
  | e :: es' =>
    match step w e with
    | Some w' => run w' es'
    | None => None
    end
  end.

(** The states the plugin can be in: after [onload], and after any event
    the host delivers. *)
Inductive reachable : World -> Prop :=
  | reachable_onload data : reachable (onload data)
  | reachable_step w e w' :
      reachable w -> step w e = Some w' -> reachable w'.

Definition isAwaitComment (k : Pending) : bool :=
  match k with AwaitComment _ => true | _ => false end.

Definition isAwaitSave (k : Pending) : bool :=
  match k with AwaitSave _ => true | _ => false end.

(** The number of ambient comment calls that are awaiting their reply. *)
Definition commentCallsInFlight (w : World) : nat :=
  List.length (List.filter isAwaitComment (map snd (map_to_list (pending w)))).

(** The stored history is the history of the chat session, when there is
    one. *)
Definition historyMirrorsSession (w : World) : Prop :=
  forall c, companionChat (plugin w) = Some c ->
            chatHistory (plugin w) = chat_history c.

(** No callback is suspended in [saveSettings()]. *)
Definition noSavePending (w : World) : Prop :=
  map_Forall (fun _ k => isAwaitSave k = false) (pending w).

(** The events that are an edit of a settings field. *)
Definition settingsEdit (e : Event) : bool :=
  match e with
  | SetCompanionName _ | SetGreetingEnabled _ | SetProbability _
  | SetApiKey _ => true
  | _ => false
  end.

(** The client is the one made from the current credential, and there is
    none when the credential is empty. *)
Definition clientInSync (w : World) : Prop :=
  ai (plugin w)
  = if truthy (apiKey (settings (plugin w)))
    then Some {| client_apiKey := apiKey (settings (plugin w)) |}
    else None.

(** The event that edits the credential field of the settings tab. *)
Definition editsCredential (e : Event) : bool :=
  match e with SetApiKey _ => true | _ => false end.

(** The events that write nothing to the status bar: time passing, an
    editor change (its timer callback writes later), a chat message sent or
    settled, an edit of a settings field before its save settles, and a
    failed save. *)
Definition keepsStatus (e : Event) : bool :=
  match e with
  | Elapse _ | EditorChange _ _ | SendChat _
  | SetCompanionName _ | SetGreetingEnabled _ | SetProbability _
  | SetApiKey _ => true
  | Settles _ (Chatted _) | Settles _ SaveFailed => true
  | _ => false
  end.

(** The status bar shows one of the two markers the guard looks for. *)
Definition marked (w : World) : Prop :=
  includes (statusBarItemEl (plugin w)) MARK_THINKING = true
  \/ includes (statusBarItemEl (plugin w)) MARK_COMMENT = true.

(** The session invariant: the chat session exists exactly when the client
    does; the client was made from a credential that is not empty; and
    identities in use are below the next one. *)
Record sessionInvariant (w : World) : Prop := {
  inv_chat_client :
    present (companionChat (plugin w)) = present (ai (plugin w));
  inv_client_key :
    forall g, ai (plugin w) = Some g -> client_apiKey g <> [];
  inv_chat_id :
    forall c, companionChat (plugin w) = Some c -> (chat_id c < next_id w)%nat;
  inv_pending_id :
    forall id k, pending w !! id = Some k -> (id < next_id w)%nat;
}.

(** Two plugin states with the same settings, the same client and the
    same chat object (its history apart). *)
Definition sameSession (p p' : Plugin) : Prop :=
  settings p' = settings p
  /\ ai p' = ai p
  /\ chat_id <$> companionChat p' = chat_id <$> companionChat p.

#[local] Instance noSavePending_dec (w : World) : Decision (noSavePending w).
Proof. unfold noSavePending. apply _. Defined.

(** The lines of [lines] at the positions [first .. last], in order; a
    position past the end of the document has no line. *)
Definition linesBetween (lines : list jsstring) (first last : nat)
  : list jsstring :=
  omap (fun i => lines !! i) (seq first (S last - first)).

(** ** Sample inputs *)

Module Sample.

(** Saved settings with a credential and the defaults otherwise. *)
Definition withKey : SavedData :=
  {| saved_apiKey := Some (js "key"); saved_companionName := None;
     saved_greetingEnabled := None;
     saved_randomCommentProbability := None |}.

(** No saved settings: the defaults, without a credential. *)
Definition noData : SavedData :=
  {| saved_apiKey := None; saved_companionName := None;
     saved_greetingEnabled := None;
     saved_randomCommentProbability := None |}.

Definition hello : jsstring := js "hello".

(** A first line has been typed and Enter pressed: the cursor is on line 1. *)
Definition firstEnter : Editor :=
  {| getValue := js "a" ++ [LF]; cursorLine := 1 |}.

(** A second line and Enter: the cursor is on line 2. *)
Definition secondEnter : Editor :=
  {| getValue := js "a" ++ [LF] ++ js "b" ++ [LF]; cursorLine := 2 |}.

(** One turn of a conversation as the library records it. *)
Definition turn : ChatTurn :=
  {| turn_text := Some (js "hi");
     turn_recorded :=
       [ {| role := Some (js "user");
            parts := Some [ {| text := Some hello |} ] |};
         {| role := Some (js "model");
            parts := Some [ {| text := Some (js "hi") |} ] |} ] |}.

(** A document of seven lines, the cursor on the last one. *)
Definition sevenLines : Editor :=
  {| getValue :=
       js "l0" ++ [LF] ++ js "l1" ++ [LF] ++ js "l2" ++ [LF] ++ js "l3"
         ++ [LF] ++ js "l4" ++ [LF] ++ js "l5" ++ [LF] ++ js "l6";
     cursorLine := 6 |}.

(** Enter is pressed twice, 50 ms apart, and both draws are below the
    probability 0.1; the two timers fire 100 ms after their Enter. *)
Definition twoQuickEnters : list Event :=
  [ LayoutReady None;
    EditorChange firstEnter 0.05%float;
    Elapse 50;
    EditorChange secondEnter 0.05%float;
    Elapse 50;
    TimerFires 3;
    Elapse 50;
    TimerFires 4 ].

(** One turn of chat, answered. *)
Definition oneTurn : list Event :=
  [ SendChat hello; Settles 2 (Chatted (Fulfilled turn)) ].

(** The credential is cleared in the settings tab; the save is pending. *)
Definition keyCleared : list Event := [ SetApiKey (js "") ].

(** One turn of chat, then the credential is cleared and the save
    resolves. *)
Definition chatThenClear : list Event :=
  oneTurn ++ [ SetApiKey (js ""); Settles 3 Saved ].

(** One turn of chat, then the companion is renamed. *)
Definition chatThenRename : list Event :=
  oneTurn ++ [ SetCompanionName (js "Nax") ].

End Sample.

(** Responses of the one-shot call. *)
Module SampleResponse.

Definition candidate (t : jsstring) (reason : jsstring) : Candidate :=
  {| content :=
       Some {| role := Some (js "model");
               parts := Some [ {| text := Some t |} ] |};
     finishReason := Some reason |}.

(** An empty top-level text and a first part with text. *)
Definition fallback : GenerateContentResponse :=
  {| response_text := Some (js "");
     candidates := Some [ candidate (js " from the part ") (js "STOP") ] |}.

(** Both texts empty, finish reason SAFETY. *)
Definition blocked : GenerateContentResponse :=
  {| response_text := Some (js "");
     candidates := Some [ candidate (js "") (js "SAFETY") ] |}.

(** A blank, but not empty, top-level text and a first part with text. *)
Definition blank : GenerateContentResponse :=
  {| response_text := Some (js " ");
     candidates := Some [ candidate (js "hello") (js "STOP") ] |}.

End SampleResponse.

(** ** Further events and sample inputs *)

(** The events that can change the chat session or the stored history: a
    reply to a chat message and the completion of a save of the settings. *)
Definition touchesChat (e : Event) : bool :=
  match e with
  | Settles _ (Chatted (Fulfilled _)) | Settles _ Saved => true
  | _ => false
  end.

Module SampleMore.

(** Saved settings whose companion name contains the thinking marker. *)
Definition markedName : SavedData :=
  {| saved_apiKey := Some (js "key");
     saved_companionName := Some (js "思考者");
     saved_greetingEnabled := None;
     saved_randomCommentProbability := None |}.

(** A chat message has been sent on a freshly loaded plugin and its reply
    is awaited (as promise 2, on chat 1). *)
Definition sent : World :=
  suspend (AwaitChat 1 Sample.hello) (onload Sample.withKey).

(** Then the credential is cleared (the save is promise 3). *)
Definition sentThenCleared : World :=
  changeSetting (set_apiKey (js "")) OtherField sent.

(** Then the save resolves, and the session is dropped while the reply is
    still awaited. *)
Definition sentThenDropped : World :=
  allocate
    (with_plugin (afterSave OtherField 3 (plugin sentThenCleared))
       (settle 3 sentThenCleared)).

(** After the save: the reply to the message arrives, the companion is
    renamed and that save fails. *)
Definition afterTheSave : list Event :=
  [ Settles 2 (Chatted (Fulfilled Sample.turn));
    SetCompanionName (js "Nax");
    Settles 5 SaveFailed ].

(** The credential is cleared in the settings tab and the save fails. *)
Definition keyClearFails : list Event :=
  [ SetApiKey (js ""); Settles 2 SaveFailed ].

(** While the comment call is awaited: the user presses Enter again, time
    passes, and a chat message is sent. *)
Definition typingOn : list Event :=
  [ EditorChange Sample.secondEnter 0.05%float; Elapse 10;
    SendChat Sample.hello ].

(** The chat panel with a message typed into the input box. *)
Definition typed : View.View :=
  {| View.chatDisplayArea := []; View.inputEl := js " hello " |}.

(** An Enter has been admitted on a freshly loaded plugin (timer 2), and
    100 ms have passed. *)
Definition admitted : World :=
  advance 100 (setTimeout (CommentTask (js "a")) 100 (onload Sample.withKey)).

(** The callback of the 100 ms timer has run on a freshly loaded plugin:
    the comment call is awaited as promise 2. *)
Definition thinking : World :=
  runTask (CommentTask (js "a")) (onload Sample.withKey).

(** A reply of the one-shot call with the text [ok]. *)
Definition ok : GenerateContentResponse :=
  {| response_text := Some (js "ok"); candidates := None |}.

End SampleMore.

(** ** Properties of the handlers *)

(** *** Interactive chat *)

Lemma sendChatMessage_resume_rejected (p : Plugin) (chat : nat) :
  sendChatMessage_resume p chat Rejected = (p, CHAT_APOLOGY).
Proof. reflexivity. Qed.

(** C1: when the remote call of [sendChatMessage] fails, the call returns the
    fixed apology string and the plugin, its [chatHistory] included, is as
    it was: for a call run in one piece, for the resumption after the
    rejection on whatever state the plugin then has, and for the event loop
    delivering the rejection. *)
Theorem C1_failed_send_leaves_history (p : Plugin) (message : jsstring) :
  present (companionChat p) = true ->
  sendChatMessage p message Rejected = (p, CHAT_APOLOGY)
  /\ chatHistory (fst (sendChatMessage p message Rejected)) = chatHistory p
  /\ (forall q chat, sendChatMessage_resume q chat Rejected = (q, CHAT_APOLOGY))
  /\ (forall w id chat m,
        pending w !! id = Some (AwaitChat chat m) ->
        exists w', step w (Settles id (Chatted Rejected)) = Some w'
                   /\ plugin w' = plugin w).
Proof.
  intros Hchat.
  assert (Hcall : sendChatMessage p message Rejected = (p, CHAT_APOLOGY)).
  { unfold sendChatMessage, sendChatMessage_begin.
    destruct (companionChat p) as [c|]; [reflexivity | discriminate Hchat]. }
  split; [exact Hcall|]. split; [now rewrite Hcall|].
  split; [intros; apply sendChatMessage_resume_rejected|].
  intros w id chat m Hid. cbn [step]. rewrite Hid. cbn.
  eexists; split; reflexivity.
Qed.

Lemma C1_failed_send_leaves_history_witness :
  present (companionChat (plugin (onload Sample.withKey))) = true
  /\ sendChatMessage (plugin (onload Sample.withKey)) Sample.hello Rejected
     = (plugin (onload Sample.withKey), CHAT_APOLOGY).
Proof.
  split; [reflexivity|].
  apply (C1_failed_send_leaves_history
           (plugin (onload Sample.withKey)) Sample.hello).
  reflexivity.
Defined.

(** C9: without a chat session an interactive send returns the fixed advisory
    string and leaves the plugin, its [chatHistory] included, as it was; the
    chat panel shows its own fixed notice and does not call at all; and a
    plugin loaded without a credential has no session and an empty
    history, which a send leaves so. *)
Theorem C9_send_without_session :
  (forall p message r,
      companionChat p = None ->
      sendChatMessage p message r = (p, CHAT_NOT_CONFIGURED))
  /\ (forall call p v,
        companionChat p = None ->
        truthy (trim (View.inputEl v)) = true ->
        View.handleSendMessage_begin call p v
        = View.Refused
            (View.displayMessage View.NO_KEY_NOTICE (js "系统") View.ai v))
  /\ (forall data message,
        truthy (apiKey (loadSettings data)) = false ->
        companionChat (plugin (onload data)) = None
        /\ chatHistory (plugin (onload data)) = []
        /\ step (onload data) (SendChat message) = Some (onload data)).
Proof.
  split; [|split].
  - intros p message r Hnone.
    unfold sendChatMessage, sendChatMessage_begin. now rewrite Hnone.
  - intros call p v Hnone Hmsg.
    unfold View.handleSendMessage_begin. now rewrite Hmsg, Hnone.
  - intros data message Hkey.
    assert (Hchat : companionChat (plugin (onload data)) = None).
    { unfold onload, initializeGeminiClient. cbn [settings plugin].
      rewrite Hkey. reflexivity. }
    split; [exact Hchat|]. split.
    + unfold onload, initializeGeminiClient. cbn [settings plugin].
      rewrite Hkey. reflexivity.
    + cbn [step]. unfold sendChatMessage_begin. now rewrite Hchat.
Qed.

Lemma C9_send_without_session_witness :
  sendChatMessage (plugin (onload Sample.noData)) Sample.hello
    (Fulfilled Sample.turn)
  = (plugin (onload Sample.noData), CHAT_NOT_CONFIGURED)
  /\ chatHistory (plugin (onload Sample.noData)) = [].
Proof.
  destruct C9_send_without_session as (Hsend & _ & Hload).
  split.
  - apply Hsend. reflexivity.
  - apply (Hload Sample.noData Sample.hello). reflexivity.
Defined.

(** *** The edit signal *)

Lemma isEnterPress_iff (p : Plugin) (editor : Editor) :
  isEnterPress p editor = true <->
  lastCursorLine p < cursorLine editor
  /\ lastTextLength p < length (getValue editor).
Proof.
  unfold isEnterPress. rewrite andb_true_iff, !Z.ltb_lt. reflexivity.
Qed.

Lemma handleEditorChange_fst (p : Plugin) (editor : Editor) (draw : float) :
  fst (handleEditorChange p editor draw)
  = with_snapshot (length (getValue editor)) (cursorLine editor) p.
Proof.
  unfold handleEditorChange.
  destruct (negb (isEnterPress p editor)); [reflexivity|].
  destruct (present _ && probabilityTest _ _); [|reflexivity].
  destruct (notWaiting _ _); reflexivity.
Qed.

(** The handler sets a timer exactly when all four gates are passed. *)
Lemma handleEditorChange_snd (p : Plugin) (editor : Editor) (draw : float) :
  snd (handleEditorChange p editor draw)
  = if isEnterPress p editor && present (ai p)
       && PrimFloat.ltb draw (randomCommentProbability (settings p))
       && notWaiting p (contextContent editor)
    then Some (contextContent editor) else None.
Proof.
  unfold handleEditorChange, probabilityTest, notWaiting. cbn [ai settings
    statusBarItemEl with_snapshot].
  destruct (isEnterPress p editor); [|reflexivity]. cbn [negb andb].
  destruct (present (ai p)); [|reflexivity]. cbn [andb].
  destruct (PrimFloat.ltb _ _); [|reflexivity]. cbn [andb].
  destruct (truthy _ && _ && _); reflexivity.
Qed.

(** C2: the committed-paragraph signal of [handleEditorChange] is true if and
    only if the new cursor line is strictly greater than the stored one and
    the new text length is strictly greater than the stored one, the stored
    values being those of before the call.  The handler acts on exactly this
    signal: it schedules a comment only if both have grown strictly, it does
    schedule one when both have grown and the later gates are passed, and it
    does nothing but store the snapshot otherwise.  Whatever the signal, the
    handler's new state is the old one with the snapshot set to the new
    length and line, so that the next call compares against them. *)
Theorem C2_edit_signal (p : Plugin) (editor : Editor) (draw : float) :
  (isEnterPress p editor = true <->
   cursorLine editor > lastCursorLine p
   /\ length (getValue editor) > lastTextLength p)
  /\ fst (handleEditorChange p editor draw)
     = with_snapshot (length (getValue editor)) (cursorLine editor) p
  /\ lastTextLength (fst (handleEditorChange p editor draw))
     = length (getValue editor)
  /\ lastCursorLine (fst (handleEditorChange p editor draw))
     = cursorLine editor
  /\ (snd (handleEditorChange p editor draw) <> None ->
      isEnterPress p editor = true)
  /\ (snd (handleEditorChange p editor draw) <> None ->
      cursorLine editor > lastCursorLine p
      /\ length (getValue editor) > lastTextLength p)
  /\ (cursorLine editor > lastCursorLine p ->
      length (getValue editor) > lastTextLength p ->
      present (ai p) = true ->
      PrimFloat.ltb draw (randomCommentProbability (settings p)) = true ->
      notWaiting p (contextContent editor) = true ->
      snd (handleEditorChange p editor draw) = Some (contextContent editor))
  /\ (cursorLine editor <= lastCursorLine p
      \/ length (getValue editor) <= lastTextLength p ->
      handleEditorChange p editor draw
      = (with_snapshot (length (getValue editor)) (cursorLine editor) p, None))
  /\ (forall editor' draw',
         snd (handleEditorChange (fst (handleEditorChange p editor draw))
                editor' draw') <> None ->
         cursorLine editor' > cursorLine editor
         /\ length (getValue editor') > length (getValue editor)).
Proof.
  assert (Hsignal : forall q e d,
             snd (handleEditorChange q e d) <> None ->
             isEnterPress q e = true).
  { intros q e d. rewrite handleEditorChange_snd.
    destruct (isEnterPress q e); [reflexivity|]. cbn. congruence. }
  split; [rewrite isEnterPress_iff; lia|].
  rewrite handleEditorChange_fst.
  split; [reflexivity|]. split; [reflexivity|]. split; [reflexivity|].
  split; [apply Hsignal|]. split; [|split; [|split]].
  - intros H. apply Hsignal, isEnterPress_iff in H. lia.
  - intros Hline Hlen Hai Hdraw Hwait.
    assert (He : isEnterPress p editor = true)
      by (apply isEnterPress_iff; lia).
    now rewrite handleEditorChange_snd, He, Hai, Hdraw, Hwait.
  - intros Hnot.
    assert (He : isEnterPress p editor = false).
    { destruct (isEnterPress p editor) eqn:He; [|reflexivity].
      apply isEnterPress_iff in He. lia. }
    unfold handleEditorChange. now rewrite He.
  - intros editor' draw' H. apply Hsignal, isEnterPress_iff in H.
    cbn [lastCursorLine lastTextLength with_snapshot] in H. lia.
Qed.

Lemma C2_edit_signal_witness :
  snd (handleEditorChange (plugin (onload Sample.withKey)) Sample.firstEnter
         0.05%float)
  = Some (contextContent Sample.firstEnter)
  /\ snd (handleEditorChange
            (fst (handleEditorChange (plugin (onload Sample.withKey))
                    Sample.firstEnter 0.05%float))
            Sample.firstEnter 0.05%float)
     = None.
Proof.
  destruct (C2_edit_signal (plugin (onload Sample.withKey)) Sample.firstEnter
              0.05%float) as (_ & _ & _ & _ & _ & _ & Hacts & _ & _).
  split.
  - apply Hacts; vm_compute; reflexivity.
  - destruct (C2_edit_signal
                (fst (handleEditorChange (plugin (onload Sample.withKey))
                        Sample.firstEnter 0.05%float))
                Sample.firstEnter 0.05%float)
      as (_ & _ & _ & _ & _ & _ & _ & Hsame & _).
    rewrite Hsame; [reflexivity|]. left. vm_compute. discriminate.
Defined.

(** The example of the specification: the line grows from 5 to 6 while the
    text shrinks from 100 to 95 code units, and there is no signal. *)
Example edit_signal_line_up_length_down (p : Plugin) (editor : Editor) :
  lastTextLength p = 100 -> lastCursorLine p = 5 ->
  length (getValue editor) = 95 -> cursorLine editor = 6 ->
  isEnterPress p editor = false.
Proof.
  intros H1 H2 H3 H4. unfold isEnterPress. rewrite H1, H2, H3, H4. reflexivity.
Qed.

(** *** The probability test *)

Lemma SFltb_irrefl (x : SpecFloat.spec_float) : SpecFloat.SFltb x x = false.
Proof.
  unfold SpecFloat.SFltb, SpecFloat.SFcompare.
  destruct x as [s|s| |s m e]; try destruct s; try reflexivity;
    rewrite ?Z.compare_refl, ?Pos.compare_cont_refl; try reflexivity.
  all: fold (Pos.compare m m); rewrite ?Pos.compare_refl; reflexivity.
Qed.

(** The comparison [<] of two equal numbers is false. *)
Lemma ltb_irrefl (x : float) : PrimFloat.ltb x x = false.
Proof. rewrite FloatAxioms.ltb_spec. apply SFltb_irrefl. Qed.

(** C7: the probability test of the trigger gate is the strict comparison
    [draw < p].  A timer is set only if the draw is strictly below the
    configured probability; when the other gates are passed (Enter signal,
    client present, context not empty, no marker in the status bar) it is
    set exactly when the draw is strictly below; a draw equal to the
    probability is never admitted, in particular the draw 0.01 against the
    probability 0.01. *)
Theorem C7_probability_test_is_strict (p : Plugin) (editor : Editor) :
  (forall draw,
      snd (handleEditorChange p editor draw) <> None ->
      PrimFloat.ltb draw (randomCommentProbability (settings p)) = true)
  /\ (forall draw,
        isEnterPress p editor = true ->
        present (ai p) = true ->
        notWaiting p (contextContent editor) = true ->
        (snd (handleEditorChange p editor draw) = Some (contextContent editor)
         <-> PrimFloat.ltb draw (randomCommentProbability (settings p)) = true))
  /\ snd (handleEditorChange p editor (randomCommentProbability (settings p)))
     = None
  /\ (randomCommentProbability (settings p) = 0.01%float ->
      snd (handleEditorChange p editor 0.01%float) = None).
Proof.
  split; [|split; [|split]].
  - intros draw. rewrite handleEditorChange_snd.
    destruct (PrimFloat.ltb _ _); [reflexivity|].
    rewrite !andb_false_r. cbn. congruence.
  - intros draw He Ha Hn. rewrite handleEditorChange_snd, He, Ha, Hn. cbn.
    destruct (PrimFloat.ltb _ _); cbn; split; congruence.
  - rewrite handleEditorChange_snd, ltb_irrefl, !andb_false_r. reflexivity.
  - intros Hp. rewrite handleEditorChange_snd, Hp.
    change (PrimFloat.ltb 0.01 0.01) with false.
    rewrite !andb_false_r. reflexivity.
Qed.

Lemma C7_probability_test_is_strict_witness :
  snd (handleEditorChange (plugin (onload Sample.withKey)) Sample.firstEnter
         0.05%float)
  = Some (js "a")
  /\ snd (handleEditorChange (plugin (onload Sample.withKey)) Sample.firstEnter
            0.1%float)
     = None.
Proof.
  destruct (C7_probability_test_is_strict
              (plugin (onload Sample.withKey)) Sample.firstEnter)
    as (_ & Hiff & Heq & _).
  split.
  - apply (Hiff 0.05%float); reflexivity.
  - exact Heq.
Defined.

(** *** Failures of the remote calls *)

Lemma js_neq (a b : jsstring) :
  bool_decide (a = b) = false -> a <> b.
Proof. intros H Heq. now rewrite bool_decide_eq_true_2 in H. Qed.

(** C6 (as amended): a rejected remote call never surfaces as an exception;
    it is turned into one of exactly three fixed strings, one for a greeting,
    one for a comment and one for the interactive chat, and the three are
    pairwise different. *)
Theorem C6_three_fixed_apologies :
  (forall type,
      getAiResponse_resume type Rejected
      = match type with greet => GREET_APOLOGY | comment => COMMENT_APOLOGY end)
  /\ (forall p type content,
        present (ai p) = true ->
        getAiResponse p type content Rejected
        = match type with greet => GREET_APOLOGY | comment => COMMENT_APOLOGY end)
  /\ (forall p chat, snd (sendChatMessage_resume p chat Rejected) = CHAT_APOLOGY)
  /\ (forall p message,
        present (companionChat p) = true ->
        snd (sendChatMessage p message Rejected) = CHAT_APOLOGY)
  /\ GREET_APOLOGY <> COMMENT_APOLOGY
  /\ COMMENT_APOLOGY <> CHAT_APOLOGY
  /\ GREET_APOLOGY <> CHAT_APOLOGY.
Proof.
  repeat split.
  - intros p type content Hai. unfold getAiResponse, getAiResponse_begin.
    destruct (ai p); [reflexivity | discriminate Hai].
  - intros p message Hchat. unfold sendChatMessage, sendChatMessage_begin.
    destruct (companionChat p); [reflexivity | discriminate Hchat].
  - apply js_neq. vm_compute. reflexivity.
  - apply js_neq. vm_compute. reflexivity.
  - apply js_neq. vm_compute. reflexivity.
Qed.

Lemma C6_three_fixed_apologies_witness :
  getAiResponse (plugin (onload Sample.withKey)) comment (js "a") Rejected
  = COMMENT_APOLOGY
  /\ snd (sendChatMessage (plugin (onload Sample.withKey)) Sample.hello Rejected)
     = CHAT_APOLOGY.
Proof.
  destruct C6_three_fixed_apologies as (_ & Hai & _ & Hchat & _).
  split.
  - apply (Hai (plugin (onload Sample.withKey)) comment (js "a")). reflexivity.
  - apply (Hchat (plugin (onload Sample.withKey)) Sample.hello). reflexivity.
Defined.

(** C6 (as stated) fails: a failed comment and a failed chat message do not
    get the same apology string. *)
Lemma C6_comment_and_chat_apologies_differ :
  getAiResponse (plugin (onload Sample.withKey)) comment (js "a") Rejected
  <> snd (sendChatMessage (plugin (onload Sample.withKey)) Sample.hello Rejected).
Proof. apply js_neq. vm_compute. reflexivity. Qed.

(** *** Extraction of the response text *)

Lemma startsWith_app (r b : jsstring) : startsWith (r ++ b) r = true.
Proof.
  induction r as [|c r IH]; [reflexivity|].
  cbn. now rewrite N.eqb_refl, IH.
Qed.

Lemma includes_startsWith (s needle : jsstring) :
  startsWith s needle = true -> includes s needle = true.
Proof. intros H. destruct s; cbn; now rewrite H. Qed.

Lemma includes_app_r (a s needle : jsstring) :
  includes s needle = true -> includes (a ++ s) needle = true.
Proof.
  intros H. induction a as [|c a IH]; [exact H|].
  cbn. rewrite IH. apply orb_true_r.
Qed.

(** The diagnostic string contains the reason it was built from. *)
Lemma diagnostic_includes (reason : jsstring) :
  includes (diagnostic reason) reason = true.
Proof.
  unfold diagnostic. apply includes_app_r, includes_startsWith, startsWith_app.
Qed.

Lemma truthy_false (s : jsstring) : truthy s = false <-> s = [].
Proof. destruct s; cbn; split; congruence. Qed.

Lemma truthy_true (s : jsstring) : truthy s = true <-> s <> [].
Proof. destruct s; cbn; split; congruence. Qed.

(** C4 (as amended): [getAiResponse] extracts the text of a response so: the
    trimmed top-level text when that field is present and not empty;
    otherwise the trimmed text of the first part of the first candidate;
    and whenever the text so chosen is empty (blank before trimming, or
    there is none) the diagnostic string, which contains the finish reason
    of the first candidate, or N/A when there is none.  The extraction is a
    total function: it yields a string for every response. *)
Theorem C4_text_extraction (result : GenerateContentResponse) :
  (forall t,
      response_text result = Some t -> t <> [] -> trim t <> [] ->
      extractResponseText result = trim t)
  /\ (forall c cs ct pt ps,
        response_text result = None \/ response_text result = Some [] ->
        candidates result = Some (c :: cs) ->
        content c = Some ct ->
        parts ct = Some (pt :: ps) ->
        trim (default [] (text pt)) <> [] ->
        extractResponseText result = trim (default [] (text pt)))
  /\ (forall t,
        response_text result = Some t -> t <> [] -> trim t = [] ->
        extractResponseText result = diagnostic (reasonOf result))
  /\ (response_text result = None \/ response_text result = Some [] ->
      candidateText result = None \/ candidateText result = Some [] ->
      extractResponseText result = diagnostic (reasonOf result))
  /\ includes (diagnostic (reasonOf result)) (reasonOf result) = true
  /\ (forall c cs r,
        candidates result = Some (c :: cs) ->
        finishReason c = Some r -> r <> [] ->
        reasonOf result = r)
  /\ (candidates result = None \/ candidates result = Some []
      \/ (exists c cs, candidates result = Some (c :: cs)
                       /\ (finishReason c = None \/ finishReason c = Some [])) ->
      reasonOf result = js "N/A").
Proof.
  unfold extractResponseText.
  split; [|split; [|split; [|split; [|split; [|split]]]]].
  - intros t Ht Hne Htrim. rewrite Ht.
    apply truthy_true in Hne, Htrim. now rewrite Hne, Htrim.
  - intros c cs ct pt ps Htext Hc Hct Hpt Htrim.
    assert (Hcand : candidateText result = Some (trim (default [] (text pt)))).
    { unfold candidateText. now rewrite Hc, Hct, Hpt. }
    apply truthy_true in Htrim.
    set (chosen := trim (default [] (text pt))) in *.
    destruct Htext as [-> | ->]; cbn [truthy]; rewrite Hcand;
      cbn [default from_option id]; rewrite Htrim; reflexivity.
  - intros t Ht Hne Htrim. rewrite Ht.
    apply truthy_true in Hne. now rewrite Hne, Htrim.
  - intros Htext Hcand.
    destruct Htext as [-> | ->], Hcand as [-> | ->]; reflexivity.
  - apply diagnostic_includes.
  - intros c cs r Hc Hr Hne. unfold reasonOf. rewrite Hc, Hr.
    apply truthy_true in Hne. now rewrite Hne.
  - unfold reasonOf.
    intros [-> | [-> | (c & cs & -> & [-> | ->])]]; reflexivity.
Qed.

Lemma C4_text_extraction_witness :
  extractResponseText SampleResponse.fallback = js "from the part"
  /\ extractResponseText SampleResponse.blocked
     = js "🤔 AI思考失败 (Reason: SAFETY)。"
  /\ includes (extractResponseText SampleResponse.blocked) (js "SAFETY") = true.
Proof.
  destruct (C4_text_extraction SampleResponse.fallback) as (_ & Hpart & _).
  destruct (C4_text_extraction SampleResponse.blocked)
    as (_ & _ & _ & Hdiag & Hincl & Hreason & _).
  split; [|split].
  - apply (Hpart (SampleResponse.candidate (js " from the part ") (js "STOP"))
             [] {| role := Some (js "model");
                   parts := Some [ {| text := Some (js " from the part ") |} ] |}
             {| text := Some (js " from the part ") |} []);
      first [ now right | reflexivity | discriminate ].
  - rewrite Hdiag; [reflexivity | now right | now right].
  - rewrite Hdiag; [| now right | now right].
    rewrite (Hreason (SampleResponse.candidate (js "") (js "SAFETY")) []
               (js "SAFETY")) in Hincl |- *;
      first [ exact Hincl | reflexivity | discriminate ].
Defined.

(** C4 (as stated) fails: the top-level text is present and not empty, the
    first part of the first candidate has text, and yet the result is the
    diagnostic string, which is neither of the two. *)
Lemma C4_blank_text_gives_diagnostic :
  response_text SampleResponse.blank = Some (js " ")
  /\ js " " <> []
  /\ candidateText SampleResponse.blank = Some (js "hello")
  /\ extractResponseText SampleResponse.blank
     = js "🤔 AI思考失败 (Reason: STOP)。"
  /\ extractResponseText SampleResponse.blank <> js " "
  /\ extractResponseText SampleResponse.blank <> trim (js " ")
  /\ extractResponseText SampleResponse.blank <> js "hello".
Proof.
  repeat split; try reflexivity; try discriminate;
    apply js_neq; vm_compute; reflexivity.
Qed.

(** *** The context of a comment *)

Lemma linesBetween_take_drop (lines : list jsstring) (n first : nat) :
  omap (fun i => lines !! i) (seq first n) = take n (drop first lines).
Proof.
  revert first. induction n as [|n IH]; intros first; [reflexivity|].
  cbn [seq omap list_omap]. rewrite IH.
  destruct (lines !! first) as [x|] eqn:Hx.
  - rewrite (drop_S _ _ _ Hx). reflexivity.
  - apply lookup_ge_None in Hx.
    rewrite !drop_ge by lia. now rewrite !take_nil.
Qed.

(** For a start and an end that are not negative, [slice] is the run of
    positions from [start] up to [end - 1], clipped at the end of the
    array. *)
Lemma slice_nonneg {A} (arr : list A) (start end_ : Z) :
  0 <= start -> 0 <= end_ ->
  slice arr start end_
  = take (Z.to_nat end_ - Z.to_nat start) (drop (Z.to_nat start) arr).
Proof.
  intros Hs He. unfold slice, relativeIndex.
  destruct (Z.ltb_spec start 0), (Z.ltb_spec end_ 0); try lia.
  set (len := List.length arr).
  destruct (Z.le_gt_cases start (Z.of_nat len)) as [Hin|Hout].
  - rewrite (Z.min_l start) by lia.
    destruct (Z.le_gt_cases end_ (Z.of_nat len)) as [Hein|Heout].
    + rewrite (Z.min_l end_) by lia. f_equal. lia.
    + rewrite (Z.min_r end_) by lia.
      rewrite !take_ge; [reflexivity | |]; rewrite length_drop; lia.
  - rewrite (Z.min_r start) by lia.
    rewrite !drop_ge by lia. now rewrite !take_nil.
Qed.

(** C8: for a cursor on line [k] of the document, the context of the comment
    is the lines [max(0, k - 4)] through [k] of the document (at most five,
    fewer at the start of the document), joined with newlines and
    trimmed. *)
Theorem C8_context_window (editor : Editor) :
  0 <= cursorLine editor ->
  let lines := split LF (getValue editor) in
  let k := cursorLine editor in
  contextContent editor
  = trim (join [LF]
            (linesBetween lines (Z.to_nat (Z.max 0 (k - 4))) (Z.to_nat k)))
  /\ (List.length
        (linesBetween lines (Z.to_nat (Z.max 0 (k - 4))) (Z.to_nat k)) <= 5)%nat
  /\ (forall i : nat,
        linesBetween lines (Z.to_nat (Z.max 0 (k - 4))) (Z.to_nat k) !! i
        = if decide (Z.max 0 (k - 4) + Z.of_nat i <= k)
          then lines !! (Z.to_nat (Z.max 0 (k - 4)) + i)%nat
          else None).
Proof.
  intros Hk lines k. unfold linesBetween.
  rewrite linesBetween_take_drop. split; [|split].
  - unfold contextContent. fold lines. fold k.
    rewrite slice_nonneg by lia.
    do 3 f_equal. lia.
  - rewrite length_take. lia.
  - intros i. destruct (decide _) as [Hi|Hi].
    + rewrite lookup_take_lt by lia. apply lookup_drop.
    + apply lookup_take_ge. lia.
Qed.

(** ** Properties of the event loop *)

(** *** What [saveSettings] does once the settings are saved *)

Lemma initializeGeminiClient_settings (fresh : nat) (p : Plugin) :
  settings (initializeGeminiClient fresh p) = settings p.
Proof.
  unfold initializeGeminiClient, initializeChatClient.
  destruct (truthy (apiKey (settings p))); reflexivity.
Qed.

Lemma initializeGeminiClient_ai (fresh : nat) (p : Plugin) :
  ai (initializeGeminiClient fresh p)
  = if truthy (apiKey (settings p))
    then Some {| client_apiKey := apiKey (settings p) |}
    else None.
Proof.
  unfold initializeGeminiClient, initializeChatClient.
  destruct (truthy (apiKey (settings p))); reflexivity.
Qed.

Lemma initializeGeminiClient_companionChat (fresh : nat) (p : Plugin) :
  companionChat (initializeGeminiClient fresh p)
  = if truthy (apiKey (settings p))
    then Some (chats_create fresh MODEL (chatConfig p))
    else None.
Proof.
  unfold initializeGeminiClient, initializeChatClient.
  destruct (truthy (apiKey (settings p))); reflexivity.
Qed.

Lemma initializeGeminiClient_chatHistory (fresh : nat) (p : Plugin) :
  chatHistory (initializeGeminiClient fresh p)
  = if truthy (apiKey (settings p)) then [] else chatHistory p.
Proof.
  unfold initializeGeminiClient, initializeChatClient.
  destruct (truthy (apiKey (settings p))); reflexivity.
Qed.

Lemma step_save_settles (w : World) (id : nat) (caller : SaveCaller) :
  pending w !! id = Some (AwaitSave caller) ->
  step w (Settles id Saved)
  = Some (allocate
            (with_plugin (afterSave caller (next_id w) (plugin w))
               (settle id w))).
Proof. intros H. cbn [step]. rewrite H. reflexivity. Qed.

Lemma afterSave_session (caller : SaveCaller) (fresh : nat) (p : Plugin) :
  settings (afterSave caller fresh p) = settings p
  /\ ai (afterSave caller fresh p) = ai (initializeGeminiClient fresh p)
  /\ companionChat (afterSave caller fresh p)
     = companionChat (initializeGeminiClient fresh p)
  /\ chatHistory (afterSave caller fresh p)
     = chatHistory (initializeGeminiClient fresh p).
Proof.
  destruct caller; cbn; unfold saveSettings_resume;
    rewrite ?initializeGeminiClient_settings; repeat split.
Qed.

(** *** The session invariant *)

Lemma onload_session (data : SavedData) :
  settings (plugin (onload data)) = loadSettings data
  /\ present (ai (plugin (onload data))) = truthy (apiKey (loadSettings data))
  /\ companionChat (plugin (onload data))
     = (if truthy (apiKey (loadSettings data))
        then Some (chats_create 1 MODEL (chatConfig (plugin (onload data))))
        else None)
  /\ chatHistory (plugin (onload data)) = [].
Proof.
  unfold onload, initializeGeminiClient. cbn [settings plugin].
  destruct (truthy (apiKey (loadSettings data))); repeat split.
Qed.

Lemma onload_inSync (data : SavedData) : clientInSync (onload data).
Proof.
  unfold clientInSync, onload, initializeGeminiClient. cbn [settings plugin].
  destruct (truthy (apiKey (loadSettings data))) eqn:Hkey;
    cbn [ai settings plugin with_ai with_companionChat with_chatHistory
         updateStatusBar initializeChatClient];
    rewrite ?Hkey; reflexivity.
Qed.

(** A client in step with the credential was made from a credential that is
    not empty. *)
Lemma inSync_client_key (w : World) (g : GoogleGenAI) :
  clientInSync w -> ai (plugin w) = Some g -> client_apiKey g <> [].
Proof.
  unfold clientInSync. intros Hsync Hg. rewrite Hg in Hsync.
  destruct (truthy (apiKey (settings (plugin w)))) eqn:Hkey; [|discriminate].
  injection Hsync as ->. cbn [client_apiKey]. now apply truthy_true.
Qed.

Lemma onload_invariant (data : SavedData) : sessionInvariant (onload data).
Proof.
  destruct (onload_session data) as (Hs & Ha & Hc & _).
  constructor.
  - rewrite Ha, Hc. now destruct (truthy _).
  - intros g. apply inSync_client_key, onload_inSync.
  - intros c. rewrite Hc. destruct (truthy _); [|discriminate].
    intros [= <-]. cbn [chat_id chats_create next_id onload]. lia.
  - intros id k Hk. unfold onload in Hk. cbn [pending] in Hk.
    now rewrite lookup_empty in Hk.
Qed.

Lemma sameSession_refl (p : Plugin) : sameSession p p.
Proof. repeat split. Qed.

Lemma sameSession_trans (p q r : Plugin) :
  sameSession p q -> sameSession q r -> sameSession p r.
Proof.
  intros (H1 & H2 & H3) (H4 & H5 & H6). repeat split; congruence.
Qed.

Lemma with_plugin_invariant (w : World) (p : Plugin) :
  sessionInvariant w -> sameSession (plugin w) p ->
  sessionInvariant (with_plugin p w).
Proof.
  intros [I1 I2 I3 I4] (Hs & Ha & Hc).
  constructor; cbn [plugin with_plugin next_id pending].
  - rewrite Ha, <- I1.
    destruct (companionChat p), (companionChat (plugin w));
      try reflexivity; discriminate Hc.
  - intros g Hg. rewrite Ha in Hg. now apply I2.
  - intros c' Hc'. rewrite Hc' in Hc.
    destruct (companionChat (plugin w)) as [c|]; [|discriminate Hc].
    injection Hc as Hc. specialize (I3 c eq_refl). lia.
  - exact I4.
Qed.

Lemma setTimeout_invariant (w : World) (t : Task) (delay : Z) :
  sessionInvariant w -> sessionInvariant (setTimeout t delay w).
Proof.
  intros [I1 I2 I3 I4].
  constructor; cbn [plugin setTimeout next_id pending]; auto.
  - intros c Hc. apply I3 in Hc. lia.
  - intros id k Hk. apply I4 in Hk. lia.
Qed.

Lemma clearTimer_invariant (w : World) (id : nat) :
  sessionInvariant w -> sessionInvariant (clearTimer id w).
Proof. intros [I1 I2 I3 I4]. constructor; assumption. Qed.

Lemma advance_invariant (w : World) (dt : Z) :
  sessionInvariant w -> sessionInvariant (advance dt w).
Proof. intros [I1 I2 I3 I4]. constructor; assumption. Qed.

Lemma layoutDone_invariant (w : World) :
  sessionInvariant w -> sessionInvariant (layoutDone w).
Proof. intros [I1 I2 I3 I4]. constructor; assumption. Qed.

Lemma suspend_invariant (w : World) (k : Pending) :
  sessionInvariant w -> sessionInvariant (suspend k w).
Proof.
  intros [I1 I2 I3 I4].
  constructor; cbn [plugin suspend next_id pending]; auto.
  - intros c Hc. apply I3 in Hc. lia.
  - intros id k' Hid. apply lookup_insert_Some in Hid.
    destruct Hid as [[<- _] | [_ Hid]]; [lia|]. apply I4 in Hid. lia.
Qed.

Lemma settle_invariant (w : World) (id : nat) :
  sessionInvariant w -> sessionInvariant (settle id w).
Proof.
  intros [I1 I2 I3 I4].
  constructor; cbn [plugin settle next_id pending]; auto.
  intros id' k' Hid'. apply lookup_delete_Some in Hid'.
  destruct Hid' as [_ Hid']. now apply I4 in Hid'.
Qed.

Lemma updateStatusBar_session (p : Plugin) (t : jsstring) :
  sameSession p (updateStatusBar t p).
Proof. repeat split. Qed.

Lemma with_snapshot_session (p : Plugin) (len line : Z) :
  sameSession p (with_snapshot len line p).
Proof. repeat split. Qed.

Lemma handleEditorChange_session (p : Plugin) (editor : Editor) (draw : float) :
  sameSession p (fst (handleEditorChange p editor draw)).
Proof. rewrite handleEditorChange_fst. apply with_snapshot_session. Qed.

Lemma sendChatMessage_resume_session (p : Plugin) (chat : nat)
    (r : Settled ChatTurn) :
  sameSession p (fst (sendChatMessage_resume p chat r)).
Proof.
  unfold sendChatMessage_resume.
  destruct r as [turn|]; [|apply sameSession_refl].
  destruct (companionChat p) as [c|] eqn:Hc; [|apply sameSession_refl].
  repeat split. cbn [fst companionChat with_chatHistory with_companionChat].
  rewrite Hc. unfold record_turn. destruct (Nat.eqb _ _); reflexivity.
Qed.

Lemma runTask_session (t : Task) (w : World) :
  sameSession (plugin w) (plugin (runTask t w)).
Proof.
  destruct t as [ctx|]; cbn [runTask];
    [destruct (getAiResponse_begin _ comment ctx)|]; repeat split.
Qed.

Lemma onLayoutReady_session (activeEditor : option (option Editor)) (w : World) :
  sameSession (plugin w) (plugin (onLayoutReady activeEditor w)).
Proof.
  unfold onLayoutReady.
  destruct (greetOnLayout w); [destruct (present (ai (plugin w)));
    [destruct (greetUser_begin (plugin w)) as [[g|request]|]|]|];
    destruct activeEditor as [[e|]|]; repeat split.
Qed.

Lemma showComment_invariant (w : World) (c : jsstring) :
  sessionInvariant w -> sessionInvariant (showComment c w).
Proof.
  intros inv. unfold showComment.
  apply setTimeout_invariant, with_plugin_invariant;
    [exact inv | apply updateStatusBar_session].
Qed.

Lemma runTask_invariant (w : World) (t : Task) :
  sessionInvariant w -> sessionInvariant (runTask t w).
Proof.
  intros inv. destruct t as [ctx|]; cbn [runTask].
  - assert (inv1 : sessionInvariant
                     (with_plugin
                        (updateStatusBar (STATUS_THINKING (plugin w)) (plugin w))
                        w))
      by (apply with_plugin_invariant;
          [exact inv | apply updateStatusBar_session]).
    destruct (getAiResponse_begin _ comment ctx).
    + now apply showComment_invariant.
    + now apply suspend_invariant.
  - apply with_plugin_invariant; [exact inv | apply updateStatusBar_session].
Qed.

Lemma onLayoutReady_invariant (w : World) (activeEditor : option (option Editor)) :
  sessionInvariant w -> sessionInvariant (onLayoutReady activeEditor w).
Proof.
  intros inv. unfold onLayoutReady.
  match goal with
  | |- context [layoutDone (with_plugin _ ?w1)] =>
    assert (inv1 : sessionInvariant w1)
  end.
  { destruct (greetOnLayout w); [|exact inv].
    destruct (present (ai (plugin w))).
    - destruct (greetUser_begin (plugin w)) as [[g|request]|]; [| |exact inv].
      + apply with_plugin_invariant;
          [exact inv | apply updateStatusBar_session].
      + now apply suspend_invariant.
    - apply with_plugin_invariant;
        [exact inv | apply updateStatusBar_session]. }
  apply layoutDone_invariant, with_plugin_invariant; [exact inv1|].
  destruct activeEditor;
    [apply with_snapshot_session | apply sameSession_refl].
Qed.

Lemma afterSave_invariant (w : World) (id : nat) (caller : SaveCaller) :
  sessionInvariant w ->
  sessionInvariant
    (allocate (with_plugin (afterSave caller (next_id w) (plugin w))
                 (settle id w))).
Proof.
  intros [I1 I2 I3 I4].
  destruct (afterSave_session caller (next_id w) (plugin w))
    as (Hs & Ha & Hc & _).
  constructor;
    cbn [plugin allocate with_plugin settle next_id pending].
  - rewrite Ha, Hc, initializeGeminiClient_ai,
      initializeGeminiClient_companionChat.
    destruct (truthy _); reflexivity.
  - intros g. rewrite Ha, initializeGeminiClient_ai.
    destruct (truthy _) eqn:Hkey; [|discriminate]. intros [= <-].
    cbn [client_apiKey]. now apply truthy_true.
  - intros c. rewrite Hc, initializeGeminiClient_companionChat.
    destruct (truthy _); [|discriminate]. intros [= <-].
    cbn [chat_id chats_create]. lia.
  - intros id' k' Hid'. apply lookup_delete_Some in Hid'.
    destruct Hid' as [_ Hid']. apply I4 in Hid'. lia.
Qed.

Lemma changeSetting_invariant (w : World)
    (f : MyPluginSettings -> MyPluginSettings) (caller : SaveCaller) :
  sessionInvariant w -> sessionInvariant (changeSetting f caller w).
Proof.
  intros [I1 I2 I3 I4].
  constructor;
    cbn [changeSetting plugin suspend with_plugin next_id pending
         with_settings ai companionChat settings].
  - exact I1.
  - exact I2.
  - intros c Hc. apply I3 in Hc. lia.
  - intros id k Hid. apply lookup_insert_Some in Hid.
    destruct Hid as [[<- _] | [_ Hid]]; [lia|]. apply I4 in Hid. lia.
Qed.

Lemma step_invariant (w w' : World) (e : Event) :
  sessionInvariant w -> step w e = Some w' -> sessionInvariant w'.
Proof.
  intros inv Hstep.
  destruct e; cbn [step] in Hstep.
  - (* Elapse *)
    destruct (0 <=? dt); [|discriminate]. injection Hstep as <-.
    now apply advance_invariant.
  - (* LayoutReady *)
    destruct (layoutReady w); [discriminate|]. injection Hstep as <-.
    now apply onLayoutReady_invariant.
  - (* EditorChange *)
    pose proof (handleEditorChange_session (plugin w) editor draw) as Hsame.
    destruct (handleEditorChange (plugin w) editor draw) as [p [ctx|]];
      injection Hstep as <-.
    + now apply setTimeout_invariant, with_plugin_invariant.
    + now apply with_plugin_invariant.
  - (* TimerFires *)
    destruct (timers w !! id) as [t|]; [|discriminate].
    destruct (due t <=? now w); [|discriminate]. injection Hstep as <-.
    now apply runTask_invariant, clearTimer_invariant.
  - (* Settles *)
    destruct (pending w !! id) as [k|] eqn:Hk; [|discriminate].
    destruct k, o; cbn [resume] in Hstep; try discriminate;
      injection Hstep as <-.
    + apply with_plugin_invariant;
        [now apply settle_invariant | apply updateStatusBar_session].
    + now apply showComment_invariant, settle_invariant.
    + apply with_plugin_invariant;
        [now apply settle_invariant | apply sendChatMessage_resume_session].
    + now apply afterSave_invariant.
    + now apply settle_invariant.
  - (* SendChat *)
    destruct (sendChatMessage_begin (plugin w) message);
      injection Hstep as <-; [exact inv | now apply suspend_invariant].
  - injection Hstep as <-. now apply changeSetting_invariant.
  - injection Hstep as <-. now apply changeSetting_invariant.
  - injection Hstep as <-. now apply changeSetting_invariant.
  - injection Hstep as <-. now apply changeSetting_invariant.
Qed.

Lemma reachable_invariant (w : World) : reachable w -> sessionInvariant w.
Proof.
  induction 1 as [data | w e w' _ IH Hstep].
  - apply onload_invariant.
  - exact (step_invariant w w' e IH Hstep).
Qed.

Lemma C8_context_window_witness :
  0 <= cursorLine Sample.sevenLines
  /\ contextContent Sample.sevenLines
     = js "l2" ++ [LF] ++ js "l3" ++ [LF] ++ js "l4" ++ [LF] ++ js "l5"
         ++ [LF] ++ js "l6".
Proof.
  assert (Hk : 0 <= cursorLine Sample.sevenLines) by (cbn; lia).
  split; [exact Hk|].
  destruct (C8_context_window Sample.sevenLines Hk) as (Heq & _).
  rewrite Heq. vm_compute. reflexivity.
Defined.

(** *** The session and the credential *)

Lemma save_settles (w : World) (id : nat) (caller : SaveCaller) :
  pending w !! id = Some (AwaitSave caller) ->
  exists w',
    step w (Settles id Saved) = Some w'
    /\ settings (plugin w') = settings (plugin w)
    /\ ai (plugin w')
       = (if truthy (apiKey (settings (plugin w)))
          then Some {| client_apiKey := apiKey (settings (plugin w)) |}
          else None)
    /\ companionChat (plugin w')
       = (if truthy (apiKey (settings (plugin w)))
          then Some (chats_create (next_id w) MODEL (chatConfig (plugin w)))
          else None)
    /\ chatHistory (plugin w')
       = (if truthy (apiKey (settings (plugin w)))
          then [] else chatHistory (plugin w)).
Proof.
  intros Hid. rewrite (step_save_settles w id caller Hid).
  eexists; split; [reflexivity|]. cbn [plugin allocate with_plugin].
  destruct (afterSave_session caller (next_id w) (plugin w))
    as (Hs & Ha & Hc & Hh).
  rewrite Hs, Ha, Hc, Hh, initializeGeminiClient_ai,
    initializeGeminiClient_companionChat, initializeGeminiClient_chatHistory.
  repeat split.
Qed.

(** A save that fails leaves the plugin as it is: the settings keep the
    edited value, and client and session are not made anew. *)
Lemma save_fails (w : World) (id : nat) (caller : SaveCaller) :
  pending w !! id = Some (AwaitSave caller) ->
  step w (Settles id SaveFailed) = Some (settle id w).
Proof. intros Hid. cbn [step]. now rewrite Hid. Qed.

Lemma inSync_of_same (w w' : World) :
  clientInSync w ->
  settings (plugin w') = settings (plugin w) ->
  ai (plugin w') = ai (plugin w) ->
  clientInSync w'.
Proof. unfold clientInSync. intros Hsync -> ->. exact Hsync. Qed.

(** Every event but an edit of the credential keeps the client in step
    with the credential. *)
Lemma step_keeps_sync (w w' : World) (e : Event) :
  clientInSync w -> editsCredential e = false -> step w e = Some w' ->
  clientInSync w'.
Proof.
  intros Hsync He Hstep.
  destruct e; try discriminate He; cbn [step] in Hstep.
  - destruct (0 <=? dt); [|discriminate]. injection Hstep as <-.
    now apply (inSync_of_same w).
  - destruct (layoutReady w); [discriminate|]. injection Hstep as <-.
    destruct (onLayoutReady_session activeEditor w) as (Hs & Ha & _).
    now apply (inSync_of_same w).
  - destruct (handleEditorChange_session (plugin w) editor draw)
      as (Hs & Ha & _).
    destruct (handleEditorChange (plugin w) editor draw) as [p [ctx|]];
      injection Hstep as <-; now apply (inSync_of_same w).
  - destruct (timers w !! id) as [t|]; [|discriminate].
    destruct (due t <=? now w); [|discriminate]. injection Hstep as <-.
    destruct (runTask_session (task t) (clearTimer id w)) as (Hs & Ha & _).
    now apply (inSync_of_same w).
  - destruct (pending w !! id) as [k|] eqn:Hk; [|discriminate].
    destruct k, o; cbn [resume] in Hstep; try discriminate.
    + injection Hstep as <-. now apply (inSync_of_same w).
    + injection Hstep as <-. now apply (inSync_of_same w).
    + injection Hstep as <-.
      destruct (sendChatMessage_resume_session (plugin w) chat r)
        as (Hs & Ha & _).
      now apply (inSync_of_same w).
    + destruct (save_settles w id caller Hk) as (w1 & Hstep1 & Hs & Ha & _).
      cbn [step] in Hstep1. rewrite Hk in Hstep1. cbn [resume] in Hstep1.
      rewrite Hstep in Hstep1. injection Hstep1 as <-.
      unfold clientInSync. now rewrite Ha, Hs.
    + injection Hstep as <-. now apply (inSync_of_same w).
  - destruct (sendChatMessage_begin (plugin w) message);
      injection Hstep as <-; [exact Hsync | now apply (inSync_of_same w)].
  - injection Hstep as <-. exact Hsync.
  - injection Hstep as <-. exact Hsync.
  - injection Hstep as <-. exact Hsync.
Qed.

Lemma run_keeps_sync (es : list Event) (w w' : World) :
  clientInSync w ->
  Forall (fun e => editsCredential e = false) es ->
  run w es = Some w' ->
  clientInSync w'.
Proof.
  revert w. induction es as [|e es IH]; intros w Hsync Hes Hrun;
    cbn [run] in Hrun.
  - now injection Hrun as <-.
  - destruct (step w e) as [w1|] eqn:Hstep; [|discriminate].
    apply Forall_cons in Hes. destruct Hes as [He Hes].
    exact (IH w1 (step_keeps_sync w w1 e Hsync He Hstep) Hes Hrun).
Qed.

Lemma run_reachable (w : World) (es : list Event) (w' : World) :
  reachable w -> run w es = Some w' -> reachable w'.
Proof.
  revert w. induction es as [|e es IH]; intros w Hw Hrun; cbn in Hrun.
  - now injection Hrun as <-.
  - destruct (step w e) as [w1|] eqn:Hstep; [|discriminate].
    exact (IH w1 (reachable_step w e w1 Hw Hstep) Hrun).
Qed.

(** In a reachable state whose client is in step with the credential, the
    session exists exactly when the credential is not empty. *)
Lemma inSync_session (w : World) :
  reachable w -> clientInSync w ->
  present (companionChat (plugin w)) = truthy (apiKey (settings (plugin w))).
Proof.
  intros Hreach Hsync.
  rewrite (inv_chat_client w (reachable_invariant w Hreach)), Hsync.
  now destruct (truthy _).
Qed.

(** C5 (as amended): in every reachable state the chat session exists exactly
    when the client does, and the client was made from a credential that is
    not empty.  After loading, and after every save of the settings that
    completes, the session exists exactly when the credential is not empty,
    and this stays so, whatever else happens (failed saves included), until
    the credential field is edited again.  Whenever a pending save
    completes - after a change of the credential or any other edit of the
    settings - a non-empty credential makes the plugin replace its session by
    a newly created one with an empty history and empty [chatHistory], and an
    empty credential makes it drop the session and create none.  A save that
    fails leaves the plugin as it is. *)
Theorem C5_session_follows_credential (w : World) :
  reachable w ->
  (present (companionChat (plugin w)) = present (ai (plugin w))
   /\ forall g, ai (plugin w) = Some g -> client_apiKey g <> [])
  /\ (forall data es w',
        Forall (fun e => editsCredential e = false) es ->
        run (onload data) es = Some w' ->
        present (companionChat (plugin w'))
        = truthy (apiKey (settings (plugin w'))))
  /\ (forall id caller,
        pending w !! id = Some (AwaitSave caller) ->
        exists w1,
          step w (Settles id Saved) = Some w1
          /\ (if truthy (apiKey (settings (plugin w)))
              then companionChat (plugin w1)
                   = Some (chats_create (next_id w) MODEL
                             (chatConfig (plugin w)))
                   /\ chatHistory (plugin w1) = []
                   /\ (forall old,
                          companionChat (plugin w) = Some old ->
                          chat_id old <> next_id w)
              else companionChat (plugin w1) = None)
          /\ forall es w',
               Forall (fun e => editsCredential e = false) es ->
               run w1 es = Some w' ->
               present (companionChat (plugin w'))
               = truthy (apiKey (settings (plugin w'))))
  /\ (forall id caller,
        pending w !! id = Some (AwaitSave caller) ->
        exists w1,
          step w (Settles id SaveFailed) = Some w1
          /\ plugin w1 = plugin w)
  /\ (forall value,
        exists w1 w2,
          step w (SetApiKey value) = Some w1
          /\ apiKey (settings (plugin w1)) = value
          /\ companionChat (plugin w1) = companionChat (plugin w)
          /\ step w1 (Settles (next_id w) Saved) = Some w2
          /\ if truthy value
             then (exists c,
                      companionChat (plugin w2) = Some c
                      /\ chat_history c = []
                      /\ forall old,
                           companionChat (plugin w) = Some old ->
                           chat_id old <> chat_id c)
                  /\ chatHistory (plugin w2) = []
             else companionChat (plugin w2) = None).
Proof.
  intros Hreach. pose proof (reachable_invariant w Hreach) as inv.
  split; [|split; [|split; [|split]]].
  - split; [apply (inv_chat_client w inv) | apply (inv_client_key w inv)].
  - intros data es w' Hes Hrun.
    apply inSync_session.
    + exact (run_reachable _ _ _ (reachable_onload data) Hrun).
    + exact (run_keeps_sync es _ _ (onload_inSync data) Hes Hrun).
  - intros id caller Hid.
    destruct (save_settles w id caller Hid)
      as (w1 & Hstep & Hs & Ha & Hc & Hh).
    exists w1. split; [exact Hstep|]. split.
    + destruct (truthy (apiKey (settings (plugin w)))); [|exact Hc].
      repeat split; [exact Hc | exact Hh |].
      intros old Hold. apply (inv_chat_id w inv) in Hold. lia.
    + intros es w' Hes Hrun.
      assert (Hreach1 : reachable w1)
        by exact (reachable_step w _ w1 Hreach Hstep).
      assert (Hsync1 : clientInSync w1)
        by (unfold clientInSync; now rewrite Ha, Hs).
      apply inSync_session.
      * exact (run_reachable _ _ _ Hreach1 Hrun).
      * exact (run_keeps_sync es _ _ Hsync1 Hes Hrun).
  - intros id caller Hid. exists (settle id w).
    split; [now apply save_fails with (caller := caller) | reflexivity].
  - intros value.
    set (w1 := changeSetting (set_apiKey value) OtherField w).
    assert (Hid : pending w1 !! next_id w = Some (AwaitSave OtherField))
      by apply lookup_insert_eq.
    destruct (save_settles w1 (next_id w) OtherField Hid)
      as (w2 & Hstep & _ & _ & Hc & Hh).
    exists w1, w2. repeat split; [exact Hstep|].
    change (apiKey (settings (plugin w1))) with value in Hc, Hh.
    destruct (truthy value); [|exact Hc].
    split; [|exact Hh].
    eexists. split; [exact Hc|]. split; [reflexivity|].
    intros old Hold. apply (inv_chat_id w inv) in Hold. cbn. lia.
Qed.

Lemma C5_session_follows_credential_witness :
  reachable SampleMore.sentThenCleared
  /\ exists w1 w',
       step SampleMore.sentThenCleared (Settles 3 Saved) = Some w1
       /\ run w1 SampleMore.afterTheSave = Some w'
       /\ present (companionChat (plugin w'))
          = truthy (apiKey (settings (plugin w'))).
Proof.
  assert (Hreach : reachable SampleMore.sentThenCleared).
  { apply (run_reachable (onload Sample.withKey)
             [SendChat Sample.hello; SetApiKey (js "")] _
             (reachable_onload _)).
    vm_compute. reflexivity. }
  split; [exact Hreach|].
  destruct (C5_session_follows_credential SampleMore.sentThenCleared Hreach)
    as (_ & _ & Hsaved & _).
  destruct (Hsaved 3%nat OtherField eq_refl) as (w1 & Hstep & _ & Hafter).
  destruct (run w1 SampleMore.afterTheSave) as [w'|] eqn:Hrun.
  - exists w1, w'. split; [exact Hstep|]. split; [exact Hrun|].
    apply (Hafter SampleMore.afterTheSave w'); [|exact Hrun].
    repeat constructor.
  - exfalso.
    assert (Hw1 : Some w1 = Some SampleMore.sentThenDropped)
      by (rewrite <- Hstep; vm_compute; reflexivity).
    injection Hw1 as ->. vm_compute in Hrun. discriminate Hrun.
Defined.

(** C5 (as stated) fails in three ways.  While the save of a cleared
    credential is pending, the state has a session and an empty credential;
    when that save fails, the state stays so with nothing pending.  And once
    such a save has resolved, the session is gone and no new one is created,
    while the [chatHistory] of the old conversation is still there. *)
Lemma C5_session_without_credential :
  (exists w,
      run (onload Sample.withKey) Sample.keyCleared = Some w
      /\ reachable w
      /\ apiKey (settings (plugin w)) = []
      /\ present (companionChat (plugin w)) = true)
  /\ (exists w,
        run (onload Sample.withKey) SampleMore.keyClearFails = Some w
        /\ reachable w
        /\ noSavePending w
        /\ apiKey (settings (plugin w)) = []
        /\ present (companionChat (plugin w)) = true)
  /\ (exists w,
        run (onload Sample.withKey) Sample.chatThenClear = Some w
        /\ reachable w
        /\ noSavePending w
        /\ apiKey (settings (plugin w)) = []
        /\ companionChat (plugin w) = None
        /\ chatHistory (plugin w) = turn_recorded Sample.turn
        /\ chatHistory (plugin w) <> []).
Proof.
  split; [|split].
  - eexists. split; [vm_compute; reflexivity|].
    split; [|split; reflexivity].
    apply (run_reachable (onload Sample.withKey) Sample.keyCleared _
             (reachable_onload _)).
    vm_compute. reflexivity.
  - eexists. split; [vm_compute; reflexivity|].
    split; [|split; [|split; reflexivity]].
    + apply (run_reachable (onload Sample.withKey) SampleMore.keyClearFails _
               (reachable_onload _)).
      vm_compute. reflexivity.
    + apply (bool_decide_unpack _). vm_compute. exact I.
  - eexists. split; [vm_compute; reflexivity|].
    split; [|split; [|repeat split; discriminate]].
    + apply (run_reachable (onload Sample.withKey) Sample.chatThenClear _
               (reachable_onload _)).
      vm_compute. reflexivity.
    + apply (bool_decide_unpack _). vm_compute. exact I.
Qed.

(** C10 (as amended): every edit of a settings field - name, greeting flag,
    probability or credential - calls [saveSettings()]; whenever the save of
    such a call completes, the client is made anew from the credential and,
    the credential being present, the chat session is replaced by a new one
    and [chatHistory] is emptied: the conversation is forgotten.  When the
    save fails, nothing is made anew: the plugin, its session and
    [chatHistory] included, stays as it is. *)
Theorem C10_completed_save_resets_chat (w : World) :
  (forall e,
      settingsEdit e = true ->
      exists w1 caller,
        step w e = Some w1
        /\ pending w1 !! next_id w = Some (AwaitSave caller))
  /\ (forall id caller,
        pending w !! id = Some (AwaitSave caller) ->
        exists w',
          step w (Settles id Saved) = Some w'
          /\ ai (plugin w')
             = (if truthy (apiKey (settings (plugin w)))
                then Some {| client_apiKey := apiKey (settings (plugin w)) |}
                else None)
          /\ (truthy (apiKey (settings (plugin w))) = true ->
              companionChat (plugin w')
              = Some (chats_create (next_id w) MODEL (chatConfig (plugin w)))
              /\ chatHistory (plugin w') = []))
  /\ (forall id caller,
        pending w !! id = Some (AwaitSave caller) ->
        exists w',
          step w (Settles id SaveFailed) = Some w'
          /\ plugin w' = plugin w
          /\ pending w' = delete id (pending w))
  /\ (forall fresh p,
        truthy (apiKey (settings p)) = true ->
        companionChat (saveSettings_resume fresh p)
        = Some (chats_create fresh MODEL (chatConfig p))
        /\ chatHistory (saveSettings_resume fresh p) = []).
Proof.
  split; [|split; [|split]].
  - intros e He.
    destruct e; try discriminate He; cbn [step];
      eexists; eexists; (split; [reflexivity | apply lookup_insert_eq]).
  - intros id caller Hid.
    destruct (save_settles w id caller Hid) as (w' & Hstep & _ & Ha & Hc & Hh).
    exists w'. split; [exact Hstep|]. split; [exact Ha|].
    intros Hkey. rewrite Hkey in Hc, Hh. now split.
  - intros id caller Hid. exists (settle id w).
    split; [now apply save_fails with (caller := caller)|]. now split.
  - intros fresh p Hkey. unfold saveSettings_resume.
    rewrite initializeGeminiClient_companionChat,
      initializeGeminiClient_chatHistory, Hkey. now split.
Qed.

Lemma C10_completed_save_resets_chat_witness :
  exists w1 w2,
    run (onload Sample.withKey) Sample.chatThenRename = Some w1
    /\ chatHistory (plugin w1) = turn_recorded Sample.turn
    /\ step w1 (Settles 3 Saved) = Some w2
    /\ chatHistory (plugin w2) = [].
Proof.
  eexists.
  match goal with
  | |- exists w2, run _ _ = Some ?w1 /\ _ =>
    assert (Hrun : run (onload Sample.withKey) Sample.chatThenRename = Some w1)
      by (vm_compute; reflexivity)
  end.
  match type of Hrun with
  | _ = Some ?w1 =>
    destruct (C10_completed_save_resets_chat w1) as (_ & Hsave & _);
    destruct (Hsave 3%nat NameField eq_refl) as (w2 & Hstep & _ & Hwipe)
  end.
  exists w2. split; [exact Hrun|]. split; [reflexivity|].
  split; [exact Hstep|]. apply Hwipe. reflexivity.
Defined.

(** C10 (as stated) fails: the companion is renamed after one turn of chat
    and the save fails.  [saveSettings()] was called, and yet the session is
    the one it was and the conversation is still stored. *)
Lemma C10_failed_save_keeps_chat :
  exists w1 w2,
    run (onload Sample.withKey) Sample.chatThenRename = Some w1
    /\ step w1 (Settles 3 SaveFailed) = Some w2
    /\ companionName (settings (plugin w2)) = js "Nax"
    /\ companionChat (plugin w2) = companionChat (plugin w1)
    /\ present (companionChat (plugin w2)) = true
    /\ chatHistory (plugin w2) = turn_recorded Sample.turn
    /\ chatHistory (plugin w2) <> [].
Proof.
  eexists. eexists. split; [vm_compute; reflexivity|].
  split; [vm_compute; reflexivity|].
  repeat split; try reflexivity. discriminate.
Qed.

(** *** The re-entrancy guard of the ambient comments *)

(** While the status bar shows the thinking marker or the comment marker,
    the handler sets no timer, whatever the draw. *)
Lemma marker_blocks_comment (p : Plugin) (editor : Editor) (draw : float) :
  includes (statusBarItemEl p) MARK_THINKING = true
  \/ includes (statusBarItemEl p) MARK_COMMENT = true ->
  snd (handleEditorChange p editor draw) = None.
Proof.
  intros H. rewrite handleEditorChange_snd. unfold notWaiting.
  destruct H as [-> | ->]; cbn; now rewrite ?andb_false_r.
Qed.

(** Both status texts of an ambient comment carry a marker. *)
Lemma comment_statuses_are_marked (p : Plugin) (c : jsstring) :
  includes (STATUS_THINKING p) MARK_THINKING = true
  /\ includes (STATUS_COMMENT p c) MARK_COMMENT = true.
Proof.
  split.
  - unfold STATUS_THINKING. apply includes_app_r. reflexivity.
  - unfold STATUS_COMMENT.
    apply includes_app_r.
    change (js " (评论): ") with (js " (" ++ MARK_COMMENT ++ js "): ").
    rewrite <- !app_assoc. apply includes_app_r, includes_startsWith.
    apply startsWith_app.
Qed.

(** C3 on the code: Enter is pressed twice within the 100 ms delay of the
    timer, with both draws below the probability.  The status bar gets its
    thinking marker only when the first timer fires, so the second signal is
    admitted too, and after the second timer has fired two comment calls
    await their reply at the same time. *)
Theorem C3_two_comment_calls_in_flight :
  exists w,
    run (onload Sample.withKey) Sample.twoQuickEnters = Some w
    /\ now w = 150
    /\ commentCallsInFlight w = 2%nat.
Proof. eexists. split; [vm_compute; reflexivity|]. split; reflexivity. Qed.

(** ** Further properties of the code *)

(** *** The guard on the status bar *)

Lemma startsWith_app_l (a s needle : jsstring) :
  startsWith a needle = true -> startsWith (a ++ s) needle = true.
Proof.
  revert a. induction needle as [|x needle IH]; intros a H; [reflexivity|].
  destruct a as [|b a]; [discriminate H|].
  cbn [startsWith app] in H |- *.
  apply andb_true_iff in H. destruct H as [Hx Hr].
  now rewrite Hx, (IH a Hr).
Qed.

Lemma includes_app_l (a s needle : jsstring) :
  includes a needle = true -> includes (a ++ s) needle = true.
Proof.
  induction a as [|c a IH]; intros H.
  - cbn [includes] in H. rewrite orb_false_r in H.
    apply includes_startsWith. now apply (startsWith_app_l [] s).
  - cbn [includes] in H. apply orb_true_iff in H.
    change ((c :: a) ++ s) with (c :: (a ++ s)). cbn [includes].
    apply orb_true_iff. destruct H as [H | H].
    + left. now apply (startsWith_app_l (c :: a) s).
    + right. now apply IH.
Qed.

Lemma sendChatMessage_resume_status (p : Plugin) (chat : nat)
    (r : Settled ChatTurn) :
  statusBarItemEl (fst (sendChatMessage_resume p chat r)) = statusBarItemEl p.
Proof.
  unfold sendChatMessage_resume.
  destruct r as [turn|]; [|reflexivity].
  destruct (companionChat p); reflexivity.
Qed.

(** An event that writes nothing to the status bar, delivered while the
    status bar shows a marker, leaves the status text and sets no timer. *)
Lemma step_keeps_status (w w' : World) (e : Event) :
  marked w -> keepsStatus e = true -> step w e = Some w' ->
  statusBarItemEl (plugin w') = statusBarItemEl (plugin w)
  /\ timers w' = timers w.
Proof.
  intros Hm He Hstep.
  destruct e; try discriminate He; cbn [step] in Hstep.
  - destruct (0 <=? dt); [|discriminate]. injection Hstep as <-. now split.
  - pose proof (marker_blocks_comment (plugin w) editor draw Hm) as Hsnd.
    pose proof (handleEditorChange_fst (plugin w) editor draw) as Hfst.
    destruct (handleEditorChange (plugin w) editor draw) as [p o].
    cbn [fst snd] in Hsnd, Hfst. subst o p. injection Hstep as <-. now split.
  - destruct (pending w !! id) as [k|]; [|discriminate].
    destruct k, o as [r|r| |]; try discriminate He;
      cbn [resume] in Hstep; try discriminate Hstep; injection Hstep as <-.
    + split; [|reflexivity]. apply sendChatMessage_resume_status.
    + now split.
  - destruct (sendChatMessage_begin (plugin w) message);
      injection Hstep as <-; now split.
  - injection Hstep as <-. now split.
  - injection Hstep as <-. now split.
  - injection Hstep as <-. now split.
  - injection Hstep as <-. now split.
Qed.

Lemma run_keeps_status (es : list Event) (w w' : World) :
  marked w ->
  Forall (fun e => keepsStatus e = true) es ->
  run w es = Some w' ->
  statusBarItemEl (plugin w') = statusBarItemEl (plugin w)
  /\ timers w' = timers w.
Proof.
  revert w. induction es as [|e es IH]; intros w Hm Hes Hrun;
    cbn [run] in Hrun.
  - injection Hrun as <-. now split.
  - destruct (step w e) as [w1|] eqn:Hstep; [|discriminate].
    apply Forall_cons in Hes. destruct Hes as [He Hes].
    destruct (step_keeps_status w w1 e Hm He Hstep) as [Hs Ht].
    assert (Hm1 : marked w1) by (unfold marked; now rewrite Hs).
    destruct (IH w1 Hm1 Hes Hrun) as [Hs' Ht'].
    split; congruence.
Qed.

(** X1: when the callback of the 100 ms timer runs, and when the reply to
    the comment call (or its failure) arrives, the status text carries a
    marker.  While the status text carries a marker, every editor change is
    dropped whatever the draw; and over any run of events that write nothing
    to the status bar - time passing, editor changes, chat messages sent or
    settled, edits of the settings, failed saves - the status text stays as
    it is, no timer is set and the guard stays closed.  The guard is closed
    by the text only: a greeting that arrives meanwhile replaces the status
    text while the comment calls are still pending. *)
Theorem X1_comment_in_progress_drops_signals (w : World) :
  (forall ctx, marked (runTask (CommentTask ctx) w))
  /\ (forall id request r,
        pending w !! id = Some (AwaitComment request) ->
        exists w',
          step w (Settles id (Generated r)) = Some w'
          /\ statusBarItemEl (plugin w')
             = STATUS_COMMENT (plugin w) (getAiResponse_resume comment r)
          /\ marked w')
  /\ (marked w ->
      forall editor draw,
        snd (handleEditorChange (plugin w) editor draw) = None)
  /\ (marked w ->
      forall es w',
        Forall (fun e => keepsStatus e = true) es ->
        run w es = Some w' ->
        statusBarItemEl (plugin w') = statusBarItemEl (plugin w)
        /\ timers w' = timers w
        /\ forall editor draw,
             snd (handleEditorChange (plugin w') editor draw) = None)
  /\ (forall id request r,
        pending w !! id = Some (AwaitGreeting request) ->
        exists w',
          step w (Settles id (Generated r)) = Some w'
          /\ statusBarItemEl (plugin w')
             = STATUS_GREETING (plugin w) (getAiResponse_resume greet r)
          /\ forall id' request',
               pending w !! id' = Some (AwaitComment request') ->
               pending w' !! id' = Some (AwaitComment request')).
Proof.
  split; [|split; [|split; [|split]]].
  - intros ctx. unfold marked. cbn [runTask].
    destruct (getAiResponse_begin _ comment ctx) as [c|request].
    + right. apply (proj2 (comment_statuses_are_marked (plugin w) c)).
    + left. apply (proj1 (comment_statuses_are_marked (plugin w) (js ""))).
  - intros id request r Hid. cbn [step]. rewrite Hid. cbn [resume].
    eexists. split; [reflexivity|]. split; [reflexivity|].
    right. apply (proj2 (comment_statuses_are_marked (plugin w) _)).
  - intros Hm editor draw. now apply marker_blocks_comment.
  - intros Hm es w' Hes Hrun.
    destruct (run_keeps_status es w w' Hm Hes Hrun) as [Hs Ht].
    split; [exact Hs|]. split; [exact Ht|].
    intros editor draw. apply marker_blocks_comment. now rewrite Hs.
  - intros id request r Hid. cbn [step]. rewrite Hid. cbn [resume].
    eexists. split; [reflexivity|]. split; [reflexivity|].
    intros id' request' Hid'. cbn [pending with_plugin settle].
    rewrite lookup_delete_ne; [exact Hid'|].
    intros <-. rewrite Hid in Hid'. discriminate Hid'.
Qed.

Lemma X1_comment_in_progress_drops_signals_witness :
  marked SampleMore.thinking
  /\ exists w',
       run SampleMore.thinking SampleMore.typingOn = Some w'
       /\ timers w' = timers SampleMore.thinking
       /\ snd (handleEditorChange (plugin w') Sample.secondEnter 0.05%float)
          = None.
Proof.
  destruct (X1_comment_in_progress_drops_signals (onload Sample.withKey))
    as (Hstart & _).
  assert (Hm : marked SampleMore.thinking) by apply (Hstart (js "a")).
  split; [exact Hm|].
  destruct (X1_comment_in_progress_drops_signals SampleMore.thinking)
    as (_ & _ & _ & Hperiod & _).
  destruct (run SampleMore.thinking SampleMore.typingOn) as [w'|] eqn:Hrun;
    [|vm_compute in Hrun; discriminate Hrun].
  exists w'. split; [reflexivity|].
  destruct (Hperiod Hm SampleMore.typingOn w') as (_ & Ht & Hdrop);
    [repeat constructor | exact Hrun |].
  split; [exact Ht | apply Hdrop].
Defined.

(** X2: a marker inside the companion name, or inside the greeting shown in
    the status bar, closes the guard as well: with a status text that starts
    with such a name, or that shows such a greeting, no editor change is
    ever admitted. *)
Theorem X2_marker_in_name_or_greeting (p : Plugin) (editor : Editor)
    (draw : float) :
  (forall suffix,
      includes (companionName (settings p)) MARK_THINKING = true
      \/ includes (companionName (settings p)) MARK_COMMENT = true ->
      statusBarItemEl p = companionName (settings p) ++ suffix ->
      snd (handleEditorChange p editor draw) = None)
  /\ (forall q greeting,
        includes greeting MARK_THINKING = true
        \/ includes greeting MARK_COMMENT = true ->
        p = greetUser_resume q greeting ->
        snd (handleEditorChange p editor draw) = None).
Proof.
  split.
  - intros suffix Hname Hstatus. apply marker_blocks_comment. rewrite Hstatus.
    destruct Hname as [H | H]; [left | right]; now apply includes_app_l.
  - intros q greeting Hgreet ->. apply marker_blocks_comment.
    unfold greetUser_resume, STATUS_GREETING.
    cbn [statusBarItemEl updateStatusBar].
    destruct Hgreet as [H | H]; [left | right];
      now apply includes_app_r, includes_app_r.
Qed.

Lemma X2_marker_in_name_or_greeting_witness :
  snd (handleEditorChange (plugin (onload SampleMore.markedName))
         Sample.firstEnter 0.05%float)
  = None.
Proof.
  destruct (X2_marker_in_name_or_greeting
              (plugin (onload SampleMore.markedName)) Sample.firstEnter
              0.05%float) as (Hname & _).
  apply (Hname (js ": 正在待命中...")).
  - left. vm_compute. reflexivity.
  - reflexivity.
Defined.

(** *** The probability field of the settings tab *)

(** X3: whatever number the probability field parses to, the value stored
    is a number between 0.01 and 1.0: it is not NaN, not below 0.01 and not
    above 1.0.  A number that is not NaN, not below 0.01 and not above 1.0
    is stored as it is; NaN and every number outside the range become the
    default 0.1. *)
Theorem X3_stored_probability_in_range (numValue : float) :
  PrimFloat.is_nan (validProbability numValue) = false
  /\ PrimFloat.ltb (validProbability numValue) 0.01%float = false
  /\ PrimFloat.ltb 1.0%float (validProbability numValue) = false
  /\ (PrimFloat.is_nan numValue = false ->
      PrimFloat.ltb numValue 0.01%float = false ->
      PrimFloat.ltb 1.0%float numValue = false ->
      validProbability numValue = numValue)
  /\ (PrimFloat.is_nan numValue = true
      \/ PrimFloat.ltb numValue 0.01%float = true
      \/ PrimFloat.ltb 1.0%float numValue = true ->
      validProbability numValue = 0.1%float)
  /\ (validProbability numValue = numValue
      \/ validProbability numValue = 0.1%float)
  /\ validProbability (validProbability numValue) = validProbability numValue.
Proof.
  assert (Hin : PrimFloat.is_nan numValue = false ->
                PrimFloat.ltb numValue 0.01%float = false ->
                PrimFloat.ltb 1.0%float numValue = false ->
                validProbability numValue = numValue).
  { intros Hn Hl Hu. unfold validProbability. now rewrite Hn, Hl, Hu. }
  assert (Hout : PrimFloat.is_nan numValue = true
                 \/ PrimFloat.ltb numValue 0.01%float = true
                 \/ PrimFloat.ltb 1.0%float numValue = true ->
                 validProbability numValue = 0.1%float).
  { unfold validProbability. intros [-> | [-> | ->]];
      rewrite ?orb_true_r; reflexivity. }
  assert (Hcases :
            (PrimFloat.is_nan numValue = false
             /\ PrimFloat.ltb numValue 0.01%float = false
             /\ PrimFloat.ltb 1.0%float numValue = false)
            \/ (PrimFloat.is_nan numValue = true
                \/ PrimFloat.ltb numValue 0.01%float = true
                \/ PrimFloat.ltb 1.0%float numValue = true)).
  { destruct (PrimFloat.is_nan numValue); [now right; left|].
    destruct (PrimFloat.ltb numValue 0.01%float); [now right; right; left|].
    destruct (PrimFloat.ltb 1.0%float numValue); [now right; right; right|].
    now left. }
  destruct Hcases as [(Hn & Hl & Hu) | Hbad].
  - pose proof (Hin Hn Hl Hu) as Hv.
    split; [now rewrite Hv|]. split; [now rewrite Hv|].
    split; [now rewrite Hv|]. split; [exact Hin|]. split; [exact Hout|].
    split; [now left|]. rewrite Hv. exact Hv.
  - pose proof (Hout Hbad) as Hv.
    split; [now rewrite Hv|]. split; [now rewrite Hv|].
    split; [now rewrite Hv|]. split; [exact Hin|]. split; [exact Hout|].
    split; [now right|]. rewrite Hv. reflexivity.
Qed.

Lemma X3_stored_probability_in_range_witness :
  validProbability 0.5%float = 0.5%float
  /\ validProbability 2.0%float = 0.1%float
  /\ validProbability PrimFloat.nan = 0.1%float.
Proof.
  destruct (X3_stored_probability_in_range 0.5%float)
    as (_ & _ & _ & Hin & _).
  destruct (X3_stored_probability_in_range 2.0%float)
    as (_ & _ & _ & _ & Hout & _).
  destruct (X3_stored_probability_in_range PrimFloat.nan)
    as (_ & _ & _ & _ & Hnan & _).
  split; [|split].
  - apply Hin; reflexivity.
  - apply Hout. right. right. reflexivity.
  - apply Hnan. left. reflexivity.
Defined.

(** *** One-shot calls *)

Lemma truthy_app_l (a b : jsstring) : truthy a = true -> truthy (a ++ b) = true.
Proof. destruct a; [discriminate | reflexivity]. Qed.

(** X10: [getAiResponse] never returns the empty string, whatever the state,
    the kind of call and the way the remote call settles: the status bar
    never shows an empty greeting or comment. *)
Theorem X10_one_shot_result_not_empty (p : Plugin) (type : ResponseType)
    (content : jsstring) (r : Settled GenerateContentResponse) :
  truthy (getAiResponse p type content r) = true.
Proof.
  unfold getAiResponse, getAiResponse_begin.
  destruct (ai p); [|reflexivity].
  destruct r as [result|]; [|destruct type; reflexivity].
  cbn [getAiResponse_resume]. unfold extractResponseText.
  match goal with
  | |- truthy (if truthy ?t then _ else _) = true =>
    destruct (truthy t) eqn:Ht; [exact Ht|]
  end.
  unfold diagnostic. apply truthy_app_l. reflexivity.
Qed.

(** X11: the context a timer callback gets from [handleEditorChange] is
    never empty, so the prompt of an ambient comment is always the one that
    embeds the lines of the document between the START and END markers; the
    generic prompt for an empty content is not used on this path. *)
Theorem X11_comment_prompt_embeds_context (p : Plugin) (editor : Editor)
    (draw : float) (ctx : jsstring) :
  snd (handleEditorChange p editor draw) = Some ctx ->
  ctx = contextContent editor
  /\ ctx <> []
  /\ userPrompt comment ctx
     = js "请根据以下 Obsidian 文档内容，发送一个简短、随机的评论或感想，字数在 40 汉字左右。内容是："
         ++ [LF; LF] ++ js "---START---" ++ [LF] ++ ctx ++ [LF]
         ++ js "---END---"
  /\ includes (userPrompt comment ctx) ctx = true.
Proof.
  rewrite handleEditorChange_snd.
  destruct (isEnterPress p editor && present (ai p)
            && PrimFloat.ltb draw (randomCommentProbability (settings p)));
    [|discriminate].
  cbn [andb]. destruct (notWaiting p (contextContent editor)) eqn:Hgate;
    [|discriminate].
  intros [= <-].
  assert (Hne : truthy (contextContent editor) = true).
  { unfold notWaiting in Hgate.
    destruct (truthy (contextContent editor)); [reflexivity | discriminate]. }
  assert (Hprompt :
            userPrompt comment (contextContent editor)
            = js "请根据以下 Obsidian 文档内容，发送一个简短、随机的评论或感想，字数在 40 汉字左右。内容是："
                ++ [LF; LF] ++ js "---START---" ++ [LF]
                ++ contextContent editor ++ [LF] ++ js "---END---").
  { cbn [userPrompt]. now rewrite Hne. }
  split; [reflexivity|]. split; [now apply truthy_true|].
  split; [exact Hprompt|]. rewrite Hprompt.
  do 4 apply includes_app_r. apply includes_startsWith, startsWith_app.
Qed.

Lemma X11_comment_prompt_embeds_context_witness :
  snd (handleEditorChange (plugin (onload Sample.withKey)) Sample.firstEnter
         0.05%float) = Some (js "a")
  /\ includes (userPrompt comment (js "a")) (js "a") = true.
Proof.
  assert (H : snd (handleEditorChange (plugin (onload Sample.withKey))
                     Sample.firstEnter 0.05%float) = Some (js "a"))
    by reflexivity.
  split; [exact H|].
  apply (X11_comment_prompt_embeds_context _ _ _ _ H).
Defined.

(** *** The context of a short document *)

Lemma split_not_nil (sep : code_unit) (s : jsstring) : split sep s <> [].
Proof.
  destruct s as [|c r]; cbn [split]; [discriminate|].
  destruct (c =? sep)%N; [discriminate|].
  destruct (split sep r); discriminate.
Qed.

(** Joining the pieces of a split with the separator gives the string
    back. *)
Lemma join_split (sep : code_unit) (s : jsstring) :
  join [sep] (split sep s) = s.
Proof.
  induction s as [|c r IH]; [reflexivity|].
  cbn [split]. pose proof (split_not_nil sep r) as Hnil.
  destruct (N.eqb_spec c sep) as [-> | Hne];
    destruct (split sep r) as [|l ls]; try contradiction.
  - change (join [sep] ([] :: l :: ls))
      with ([] ++ [sep] ++ join [sep] (l :: ls)).
    now rewrite IH.
  - rewrite <- IH. destruct ls; reflexivity.
Qed.

(** X6: in a document of at most five lines with the cursor on its last
    line, the context of a comment is the whole document, trimmed. *)
Theorem X6_short_document_is_its_context (editor : Editor) :
  0 <= cursorLine editor <= 4 ->
  Z.of_nat (List.length (split LF (getValue editor))) <= cursorLine editor + 1 ->
  contextContent editor = trim (getValue editor).
Proof.
  intros Hk Hlines. unfold contextContent.
  rewrite slice_nonneg by lia.
  rewrite Z.max_l by lia. change (Z.to_nat 0) with 0%nat.
  rewrite drop_0, take_ge by lia.
  now rewrite join_split.
Qed.

Lemma X6_short_document_is_its_context_witness :
  contextContent Sample.firstEnter = trim (getValue Sample.firstEnter).
Proof.
  apply X6_short_document_is_its_context.
  - cbn. lia.
  - vm_compute. discriminate.
Defined.

(** *** The snapshot at start-up *)

Lemma onload_snapshot (data : SavedData) :
  lastTextLength (plugin (onload data)) = 0
  /\ lastCursorLine (plugin (onload data)) = 0.
Proof.
  unfold onload, initializeGeminiClient. cbn [settings plugin].
  destruct (truthy (apiKey (loadSettings data))); split; reflexivity.
Qed.

Lemma onLayoutReady_snapshot (activeEditor : option (option Editor)) (w : World) :
  lastTextLength (plugin (onLayoutReady activeEditor w))
  = match activeEditor with
    | Some (Some e) => length (getValue e)
    | Some None => 0
    | None => lastTextLength (plugin w)
    end
  /\ lastCursorLine (plugin (onLayoutReady activeEditor w))
     = match activeEditor with
       | Some (Some e) => cursorLine e
       | Some None => 0
       | None => lastCursorLine (plugin w)
       end.
Proof.
  unfold onLayoutReady.
  destruct (greetOnLayout w); [destruct (present (ai (plugin w)));
    [destruct (greetUser_begin (plugin w)) as [[g|request]|]|]|];
    destruct activeEditor as [[e|]|]; split; reflexivity.
Qed.

(** X7: when the layout is ready the snapshot is seeded from the open
    editor, so that an editor change reporting the same text and cursor gives
    no signal.  Without an open editor the snapshot stays at length 0 and
    line 0, and then the first editor change of a document that is not empty
    with the cursor below line 0 counts as an Enter. *)
Theorem X7_snapshot_seeding (data : SavedData) (e : Editor) :
  (forall w,
      isEnterPress (plugin (onLayoutReady (Some (Some e)) w)) e = false
      /\ lastTextLength (plugin (onLayoutReady (Some (Some e)) w))
         = length (getValue e)
      /\ lastCursorLine (plugin (onLayoutReady (Some (Some e)) w))
         = cursorLine e)
  /\ (forall activeEditor,
        activeEditor = None \/ activeEditor = Some None ->
        exists w,
          step (onload data) (LayoutReady activeEditor) = Some w
          /\ lastTextLength (plugin w) = 0
          /\ lastCursorLine (plugin w) = 0
          /\ (0 < cursorLine e -> getValue e <> [] ->
              isEnterPress (plugin w) e = true)).
Proof.
  split.
  - intros w.
    destruct (onLayoutReady_snapshot (Some (Some e)) w) as [Hlen Hline].
    split; [|now split].
    unfold isEnterPress. rewrite Hlen, Hline, !Z.ltb_irrefl. reflexivity.
  - intros activeEditor Hae.
    exists (onLayoutReady activeEditor (onload data)).
    split; [reflexivity|].
    destruct (onLayoutReady_snapshot activeEditor (onload data))
      as [Hlen Hline].
    destruct (onload_snapshot data) as [Hlen0 Hline0].
    assert (Hsnap :
              lastTextLength (plugin (onLayoutReady activeEditor (onload data)))
              = 0
              /\ lastCursorLine
                   (plugin (onLayoutReady activeEditor (onload data))) = 0).
    { rewrite Hlen, Hline. destruct Hae as [-> | ->]; now split. }
    clear Hlen Hline. destruct Hsnap as [Hlen Hline].
    split; [exact Hlen|]. split; [exact Hline|].
    intros Hk Htext. apply isEnterPress_iff. rewrite Hlen, Hline.
    split; [exact Hk|]. unfold length.
    destruct (getValue e); [contradiction | cbn [List.length]; lia].
Qed.

Lemma X7_snapshot_seeding_witness :
  exists w,
    step (onload Sample.noData) (LayoutReady None) = Some w
    /\ isEnterPress (plugin w) Sample.firstEnter = true.
Proof.
  destruct (X7_snapshot_seeding Sample.noData Sample.firstEnter)
    as (_ & Hnone).
  destruct (Hnone None (or_introl eq_refl)) as (w & Hstep & _ & _ & Henter).
  exists w. split; [exact Hstep|].
  apply Henter; [cbn; lia | discriminate].
Defined.

(** *** What changes the chat session and the stored history *)

Lemma runTask_chat (t : Task) (w : World) :
  chatHistory (plugin (runTask t w)) = chatHistory (plugin w)
  /\ companionChat (plugin (runTask t w)) = companionChat (plugin w).
Proof.
  destruct t as [ctx|]; cbn [runTask];
    [destruct (getAiResponse_begin _ comment ctx)|]; split; reflexivity.
Qed.

Lemma onLayoutReady_chat (activeEditor : option (option Editor)) (w : World) :
  chatHistory (plugin (onLayoutReady activeEditor w)) = chatHistory (plugin w)
  /\ companionChat (plugin (onLayoutReady activeEditor w))
     = companionChat (plugin w).
Proof.
  unfold onLayoutReady.
  destruct (greetOnLayout w); [destruct (present (ai (plugin w)));
    [destruct (greetUser_begin (plugin w)) as [[g|request]|]|]|];
    destruct activeEditor as [[e|]|]; split; reflexivity.
Qed.

Lemma step_keeps_chat (w w' : World) (e : Event) :
  step w e = Some w' -> touchesChat e = false ->
  chatHistory (plugin w') = chatHistory (plugin w)
  /\ companionChat (plugin w') = companionChat (plugin w).
Proof.
  intros Hstep He. destruct e; cbn [step] in Hstep.
  - destruct (0 <=? dt); [|discriminate]. injection Hstep as <-. now split.
  - destruct (layoutReady w); [discriminate|]. injection Hstep as <-.
    apply onLayoutReady_chat.
  - destruct (handleEditorChange_session (plugin w) editor draw) as (_ & _ & _).
    pose proof (handleEditorChange_fst (plugin w) editor draw) as Hfst.
    destruct (handleEditorChange (plugin w) editor draw) as [p [ctx|]];
      cbn [fst] in Hfst; injection Hstep as <-; rewrite Hfst; now split.
  - destruct (timers w !! id) as [t|]; [|discriminate].
    destruct (due t <=? now w); [|discriminate]. injection Hstep as <-.
    apply (runTask_chat (task t) (clearTimer id w)).
  - destruct (pending w !! id) as [k|]; [|discriminate].
    destruct k, o as [r|[turn|]| |]; cbn [resume] in Hstep;
      try discriminate Hstep; try discriminate He;
      injection Hstep as <-; now split.
  - destruct (sendChatMessage_begin (plugin w) message);
      injection Hstep as <-; now split.
  - injection Hstep as <-. now split.
  - injection Hstep as <-. now split.
  - injection Hstep as <-. now split.
  - injection Hstep as <-. now split.
Qed.

(** X5: the chat session and the stored history change only when a reply to
    a chat message arrives or a save of the settings completes.  No other
    event - an editor change, a timer, the greeting or a comment arriving,
    sending a chat message, a failed chat message, editing a settings field
    - touches [companionChat] or [chatHistory]: the ambient comments never
    reach the conversation. *)
Theorem X5_only_replies_and_saves_touch_chat (w w' : World) (e : Event) :
  step w e = Some w' ->
  touchesChat e = false ->
  chatHistory (plugin w') = chatHistory (plugin w)
  /\ companionChat (plugin w') = companionChat (plugin w).
Proof. apply step_keeps_chat. Qed.

Lemma X5_only_replies_and_saves_touch_chat_witness :
  exists w',
    step SampleMore.thinking
      (Settles 2 (Generated (Fulfilled SampleMore.ok))) = Some w'
    /\ chatHistory (plugin w') = chatHistory (plugin SampleMore.thinking)
    /\ companionChat (plugin w') = companionChat (plugin SampleMore.thinking).
Proof.
  eexists. split; [reflexivity|].
  apply (X5_only_replies_and_saves_touch_chat SampleMore.thinking _
           (Settles 2 (Generated (Fulfilled SampleMore.ok))));
    reflexivity.
Defined.

(** *** The stored history and the session *)

Lemma sendChatMessage_resume_mirrors (p : Plugin) (chat : nat) (turn : ChatTurn)
    (c : Chat) :
  companionChat p = Some c ->
  companionChat (fst (sendChatMessage_resume p chat (Fulfilled turn)))
  = Some (record_turn chat (turn_recorded turn) c)
  /\ chatHistory (fst (sendChatMessage_resume p chat (Fulfilled turn)))
     = chat_history (record_turn chat (turn_recorded turn) c).
Proof. intros Hc. unfold sendChatMessage_resume. rewrite Hc. now split. Qed.

Lemma step_mirrors (w w' : World) (e : Event) :
  historyMirrorsSession w -> step w e = Some w' -> historyMirrorsSession w'.
Proof.
  intros Hm Hstep.
  destruct (touchesChat e) eqn:He.
  - destruct e as [| | | |id o| | | | |]; try discriminate He.
    cbn [step] in Hstep.
    destruct (pending w !! id) as [k|] eqn:Hk; [|discriminate].
    destruct k, o as [r|[turn|]| |]; cbn [resume] in Hstep;
      try discriminate Hstep; try discriminate He; injection Hstep as <-.
    + (* a reply to a chat message *)
      intros c'. cbn [plugin with_plugin settle].
      destruct (companionChat (plugin w)) as [c|] eqn:Hc.
      * intros H.
        change (Some (record_turn chat (turn_recorded turn) c) = Some c') in H.
        injection H as <-. reflexivity.
      * intros H. change (companionChat (plugin w) = Some c') in H.
        rewrite Hc in H. discriminate H.
    + (* a save completes *)
      intros c'. cbn [plugin allocate with_plugin settle].
      destruct (afterSave_session caller (next_id w) (plugin w))
        as (_ & _ & Hc & Hh).
      cbn [next_id settle]. rewrite Hc, Hh, initializeGeminiClient_companionChat,
        initializeGeminiClient_chatHistory.
      destruct (truthy _); [|discriminate]. now intros [= <-].
  - destruct (step_keeps_chat w w' e Hstep He) as [Hh Hc].
    intros c'. rewrite Hh, Hc. apply Hm.
Qed.

Lemma reachable_mirrors (w : World) : reachable w -> historyMirrorsSession w.
Proof.
  induction 1 as [data | w e w' _ IH Hstep].
  - destruct (onload_session data) as (_ & _ & Hc & Hh).
    intros c. rewrite Hc, Hh. destruct (truthy _); [|discriminate].
    now intros [= <-].
  - exact (step_mirrors w w' e IH Hstep).
Qed.

(** X4: in every reachable state with a chat session, the stored
    [chatHistory] - what the chat panel renders when it opens - is the
    history the session object holds: the two never drift apart. *)
Theorem X4_history_mirrors_session (w : World) (c : Chat) :
  reachable w ->
  companionChat (plugin w) = Some c ->
  chatHistory (plugin w) = chat_history c.
Proof. intros Hreach. apply (reachable_mirrors w Hreach). Qed.

Lemma X4_history_mirrors_session_witness :
  reachable (onload Sample.withKey)
  /\ chatHistory (plugin (onload Sample.withKey)) = [].
Proof.
  assert (Hreach : reachable (onload Sample.withKey))
    by apply reachable_onload.
  split; [exact Hreach|].
  apply (X4_history_mirrors_session (onload Sample.withKey)
           (chats_create 1 MODEL (chatConfig (plugin (onload Sample.withKey))))
           Hreach).
  reflexivity.
Defined.

(** X12: when the reply to a chat message arrives while the session it was
    sent on is still the plugin's session, the stored history grows by
    exactly the entries the library recorded for the turn, and the caller
    gets the text of the reply, trimmed (the empty string when the reply has
    no text). *)
Theorem X12_reply_extends_history (w : World) (id chat : nat) (m : jsstring)
    (c : Chat) (turn : ChatTurn) :
  reachable w ->
  pending w !! id = Some (AwaitChat chat m) ->
  companionChat (plugin w) = Some c ->
  chat_id c = chat ->
  exists w',
    step w (Settles id (Chatted (Fulfilled turn))) = Some w'
    /\ chatHistory (plugin w') = chatHistory (plugin w) ++ turn_recorded turn
    /\ (exists c', companionChat (plugin w') = Some c'
                   /\ chat_id c' = chat_id c
                   /\ chat_history c' = chatHistory (plugin w'))
    /\ snd (sendChatMessage_resume (plugin w) chat (Fulfilled turn))
       = trim (default [] (turn_text turn)).
Proof.
  intros Hreach Hid Hc Hchat.
  pose proof (reachable_mirrors w Hreach c Hc) as Hm.
  cbn [step]. rewrite Hid. cbn [resume].
  eexists. split; [reflexivity|]. cbn [plugin with_plugin settle].
  destruct (sendChatMessage_resume_mirrors (plugin w) chat turn c Hc)
    as [Hc' Hh'].
  assert (Hrec : record_turn chat (turn_recorded turn) c
                 = {| chat_id := chat_id c; chat_model := chat_model c;
                      chat_config := chat_config c;
                      chat_history := chat_history c ++ turn_recorded turn |}).
  { unfold record_turn. now rewrite Hchat, Nat.eqb_refl. }
  rewrite Hh', Hc', Hrec, Hm. split; [reflexivity|]. split.
  - eexists. split; [reflexivity|]. now split.
  - unfold sendChatMessage_resume. now rewrite Hc.
Qed.

(** X13: a reply that arrives after the session it was sent on has been
    replaced or dropped (the settings were saved meanwhile) is not recorded:
    the stored history stays as it is; and when there is no session any more
    the caller gets the apology although the remote call succeeded. *)
Theorem X13_reply_to_old_session_not_recorded (w : World) (id chat : nat)
    (m : jsstring) (turn : ChatTurn) :
  reachable w ->
  pending w !! id = Some (AwaitChat chat m) ->
  (forall c, companionChat (plugin w) = Some c -> chat_id c <> chat) ->
  exists w',
    step w (Settles id (Chatted (Fulfilled turn))) = Some w'
    /\ chatHistory (plugin w') = chatHistory (plugin w)
    /\ (companionChat (plugin w) = None ->
        plugin w' = plugin w
        /\ snd (sendChatMessage_resume (plugin w) chat (Fulfilled turn))
           = CHAT_APOLOGY).
Proof.
  intros Hreach Hid Hold.
  cbn [step]. rewrite Hid. cbn [resume].
  eexists. split; [reflexivity|]. cbn [plugin with_plugin settle].
  destruct (companionChat (plugin w)) as [c|] eqn:Hc.
  - destruct (sendChatMessage_resume_mirrors (plugin w) chat turn c Hc)
      as [_ Hh'].
    rewrite Hh'. split; [|discriminate].
    unfold record_turn.
    destruct (Nat.eqb_spec (chat_id c) chat) as [Heq | _];
      [now apply Hold in Heq|].
    symmetry. exact (reachable_mirrors w Hreach c Hc).
  - unfold sendChatMessage_resume. rewrite Hc. now repeat split.
Qed.

Lemma sample_sent_reachable : reachable SampleMore.sent.
Proof.
  apply (reachable_step (onload Sample.withKey) (SendChat Sample.hello));
    [apply reachable_onload | vm_compute; reflexivity].
Qed.

Lemma sample_sentThenDropped_reachable : reachable SampleMore.sentThenDropped.
Proof.
  apply (reachable_step SampleMore.sentThenCleared (Settles 3 Saved));
    [|vm_compute; reflexivity].
  apply (reachable_step SampleMore.sent (SetApiKey (js "")));
    [apply sample_sent_reachable | vm_compute; reflexivity].
Qed.

Lemma X12_reply_extends_history_witness :
  exists w',
    step SampleMore.sent (Settles 2 (Chatted (Fulfilled Sample.turn))) = Some w'
    /\ chatHistory (plugin w') = turn_recorded Sample.turn.
Proof.
  destruct (X12_reply_extends_history SampleMore.sent 2 1 Sample.hello
              (chats_create 1 MODEL (chatConfig (plugin (onload Sample.withKey))))
              Sample.turn sample_sent_reachable eq_refl eq_refl eq_refl)
    as (w' & Hstep & Hhist & _).
  exists w'. split; [exact Hstep|]. rewrite Hhist. reflexivity.
Defined.

Lemma X13_reply_to_old_session_not_recorded_witness :
  exists w',
    step SampleMore.sentThenDropped
      (Settles 2 (Chatted (Fulfilled Sample.turn))) = Some w'
    /\ chatHistory (plugin w') = []
    /\ snd (sendChatMessage_resume (plugin SampleMore.sentThenDropped) 1
              (Fulfilled Sample.turn)) = CHAT_APOLOGY.
Proof.
  assert (Hnone : companionChat (plugin SampleMore.sentThenDropped) = None)
    by reflexivity.
  destruct (X13_reply_to_old_session_not_recorded SampleMore.sentThenDropped
              2 1 Sample.hello Sample.turn sample_sentThenDropped_reachable
              eq_refl)
    as (w' & Hstep & Hhist & Hgone).
  { intros c Hc. rewrite Hnone in Hc. discriminate Hc. }
  exists w'. split; [exact Hstep|]. split.
  - rewrite Hhist. reflexivity.
  - apply (Hgone Hnone).
Defined.

(** *** Start-up *)

Lemma onload_world (data : SavedData) :
  pending (onload data) = ∅
  /\ timers (onload data) = ∅
  /\ next_id (onload data) = 2%nat
  /\ layoutReady (onload data) = false
  /\ greetOnLayout (onload data) = greetingEnabled (loadSettings data)
  /\ statusBarItemEl (plugin (onload data))
     = companionName (loadSettings data) ++ js ": 正在待命中...".
Proof.
  unfold onload, initializeGeminiClient. cbn [settings plugin].
  destruct (truthy (apiKey (loadSettings data))); repeat split.
Qed.

(** X8: what the plugin does when the layout is ready after loading.  With
    the greeting enabled and a credential, exactly one remote call is made,
    the greeting prompt under the persona of the configured name, and the
    status bar keeps its ready text until the greeting arrives and is shown
    after the name.  With the greeting enabled and no credential no call is
    made and the status bar asks for the API key.  With the greeting
    disabled nothing happens. *)
Theorem X8_startup_greeting (data : SavedData)
    (activeEditor : option (option Editor)) :
  exists w,
    step (onload data) (LayoutReady activeEditor) = Some w
    /\ if greetingEnabled (loadSettings data) then
         if truthy (apiKey (loadSettings data)) then
           pending w
           = {[ 2%nat :=
                  AwaitGreeting
                    {| model := MODEL;
                       contents :=
                         [ {| role := Some (js "user");
                              parts :=
                                Some [ {| text :=
                                            Some (js "请发送一个极度简短、友好的开机问候语。") |} ] |} ];
                       config :=
                         {| systemInstruction :=
                              getSystemInstruction
                                (companionName (loadSettings data));
                            temperature := 0.9%float;
                            maxOutputTokens := 2048 |} |} ]}
           /\ statusBarItemEl (plugin w)
              = companionName (loadSettings data) ++ js ": 正在待命中..."
           /\ forall r,
                exists w',
                  step w (Settles 2 (Generated r)) = Some w'
                  /\ pending w' = ∅
                  /\ statusBarItemEl (plugin w')
                     = companionName (loadSettings data) ++ js ": "
                         ++ getAiResponse_resume greet r
         else
           pending w = ∅
           /\ statusBarItemEl (plugin w)
              = companionName (loadSettings data)
                  ++ js ": 缺少 API Key！请检查设置。"
       else
         pending w = ∅
         /\ statusBarItemEl (plugin w)
            = companionName (loadSettings data) ++ js ": 正在待命中...".
Proof.
  destruct (onload_world data) as (Hp & _ & Hn & Hl & Hg & Hs).
  destruct (onload_session data) as (Hset & Hai & _ & _).
  exists (onLayoutReady activeEditor (onload data)).
  split; [cbn [step]; now rewrite Hl|].
  unfold onLayoutReady, greetUser_begin, getAiResponse_begin.
  rewrite Hg, Hai, Hset.
  destruct (greetingEnabled (loadSettings data)).
  - destruct (truthy (apiKey (loadSettings data))) eqn:Hkey.
    + assert (Hsome : exists g, ai (plugin (onload data)) = Some g).
      { destruct (ai (plugin (onload data))) as [g|]; [now exists g|].
        discriminate Hai. }
      destruct Hsome as [g Hg']. rewrite Hg'. cbn [andb present].
      destruct activeEditor as [[e|]|];
        cbn [plugin layoutDone with_plugin suspend pending statusBarItemEl
             with_snapshot];
        rewrite ?Hp, ?Hn, ?Hs, ?Hset, ?insert_empty;
        (split; [reflexivity|]); (split; [reflexivity|]);
        intros r; cbn [step pending layoutDone with_plugin suspend];
        rewrite ?Hp, ?Hn, ?insert_empty, ?lookup_singleton_eq; cbn [resume];
        (eexists; split; [reflexivity|]);
        unfold greetUser_resume, STATUS_GREETING;
        cbn [pending with_plugin settle layoutDone suspend plugin
             updateStatusBar statusBarItemEl settings with_snapshot];
        rewrite ?Hp, ?Hn, ?insert_empty, ?delete_singleton_eq, ?Hset;
        split; reflexivity.
    + destruct activeEditor as [[e|]|];
        unfold STATUS_NO_KEY;
        cbn [plugin layoutDone with_plugin pending statusBarItemEl
             with_snapshot updateStatusBar];
        rewrite ?Hp, ?Hset; split; reflexivity.
  - destruct activeEditor as [[e|]|];
      cbn [plugin layoutDone with_plugin pending statusBarItemEl
           with_snapshot];
      rewrite ?Hp, ?Hs; split; reflexivity.
Qed.

(** *** The presence cycle of one ambient comment *)

(** X9: when the 100 ms timer of an admitted comment fires with a client
    present, the status bar shows the thinking text and one comment call is
    made; when its reply arrives - or the call fails - the status bar shows
    the comment (or the apology) after the name and the comment marker, and
    a timer is set for 5000 ms later; that timer cannot fire before, and
    when it fires the status bar goes back to the idle text.  (Nothing else
    is delivered in between.) *)
Theorem X9_presence_cycle (w : World) (id : nat) (t : Timer) (ctx : jsstring) :
  timers w !! id = Some t ->
  task t = CommentTask ctx ->
  due t <= now w ->
  present (ai (plugin w)) = true ->
  exists w1 request,
    step w (TimerFires id) = Some w1
    /\ statusBarItemEl (plugin w1)
       = companionName (settings (plugin w)) ++ js ": 思考中..."
    /\ pending w1 = <[next_id w := AwaitComment request]> (pending w)
    /\ contents request
       = [ {| role := Some (js "user");
              parts := Some [ {| text := Some (userPrompt comment ctx) |} ] |} ]
    /\ forall r,
         exists w2,
           step w1 (Settles (next_id w) (Generated r)) = Some w2
           /\ statusBarItemEl (plugin w2)
              = companionName (settings (plugin w)) ++ js " (评论): "
                  ++ getAiResponse_resume comment r
           /\ timers w2 !! S (next_id w)
              = Some {| due := now w + 5000; task := IdleTask |}
           /\ step w2 (TimerFires (S (next_id w))) = None
           /\ forall dt,
                5000 <= dt ->
                exists w3 w4,
                  step w2 (Elapse dt) = Some w3
                  /\ step w3 (TimerFires (S (next_id w))) = Some w4
                  /\ statusBarItemEl (plugin w4)
                     = companionName (settings (plugin w)) ++ js ": 待命中...".
Proof.
  intros Hid Htask Hdue Hai.
  destruct (ai (plugin w)) as [g|] eqn:Hg; [|discriminate Hai].
  assert (Hbegin :
            exists request,
              getAiResponse_begin
                (updateStatusBar (STATUS_THINKING (plugin w)) (plugin w))
                comment ctx = AiAwaits request
              /\ contents request
                 = [ {| role := Some (js "user");
                        parts :=
                          Some [ {| text := Some (userPrompt comment ctx) |} ] |} ]).
  { unfold getAiResponse_begin. cbn [ai updateStatusBar]. rewrite Hg.
    eexists. split; reflexivity. }
  destruct Hbegin as (request & Hbegin & Hcontents).
  assert (Hstep1 :
            step w (TimerFires id)
            = Some (suspend (AwaitComment request)
                      (with_plugin
                         (updateStatusBar (STATUS_THINKING (plugin w)) (plugin w))
                         (clearTimer id w)))).
  { cbn [step]. rewrite Hid. apply Z.leb_le in Hdue. rewrite Hdue, Htask.
    cbn [runTask plugin clearTimer]. now rewrite Hbegin. }
  eexists. exists request. split; [exact Hstep1|].
  split; [reflexivity|]. split; [reflexivity|]. split; [exact Hcontents|].
  intros r. cbn [step pending suspend]. rewrite lookup_insert_eq.
  cbn [resume]. eexists. split; [reflexivity|].
  split; [reflexivity|].
  split; [cbn [showComment setTimeout timers next_id settle with_plugin suspend
               clearTimer now]; apply lookup_insert_eq|].
  split.
  - cbn [step showComment setTimeout timers next_id settle with_plugin suspend
         clearTimer now]. rewrite lookup_insert_eq. cbn [due].
    destruct (Z.leb_spec (now w + 5000) (now w)); [lia | reflexivity].
  - intros dt Hdt.
    eexists. cbn [step]. apply Z.leb_le in Hdt.
    assert (H0 : (0 <=? dt) = true) by (apply Z.leb_le; apply Z.leb_le in Hdt; lia).
    rewrite H0. eexists. split; [reflexivity|].
    cbn [showComment setTimeout timers next_id settle with_plugin suspend
         clearTimer now advance]. rewrite lookup_insert_eq. cbn [due task].
    apply Z.leb_le in Hdt.
    destruct (Z.leb_spec (now w + 5000) (now w + dt)); [|lia].
    split; reflexivity.
Qed.

Lemma X9_presence_cycle_witness :
  exists w1 w2,
    step SampleMore.admitted (TimerFires 2) = Some w1
    /\ step w1 (Settles 3 (Generated (Fulfilled SampleMore.ok))) = Some w2
    /\ statusBarItemEl (plugin w2)
       = companionName DEFAULT_SETTINGS ++ js " (评论): ok".
Proof.
  destruct (X9_presence_cycle SampleMore.admitted 2
              {| due := 100; task := CommentTask (js "a") |} (js "a")
              eq_refl eq_refl)
    as (w1 & request & Hstep1 & _ & _ & _ & Hreply);
    [cbn; lia | reflexivity |].
  destruct (Hreply (Fulfilled SampleMore.ok)) as (w2 & Hstep2 & Hstatus & _).
  exists w1, w2. split; [exact Hstep1|]. split; [exact Hstep2|].
  rewrite Hstatus. vm_compute. reflexivity.
Defined.

(** *** The chat panel *)

Lemma filter_keeps_all {A} (P : A -> Prop) `{forall x, Decision (P x)}
    (l : list A) :
  Forall P l -> filter P l = l.
Proof.
  induction 1 as [|x l Hx _ IH]; [reflexivity|].
  rewrite filter_cons, IH. now destruct (decide (P x)).
Qed.

(** X14: sending from the chat panel.  A blank input is ignored: nothing is
    shown and nothing is sent.  Otherwise, with a session, the message sent
    is the trimmed input (so never blank), the input box is cleared, and the
    user's message and a placeholder are shown; when the call returns, the
    placeholder is removed and the reply shown under the companion's current
    name: the panel then shows what it showed before, the message and the
    reply. *)
Theorem X14_panel_send_round_trip (call : nat) (p : Plugin) (v : View.View) :
  (truthy (trim (View.inputEl v)) = false ->
   View.handleSendMessage_begin call p v = View.Ignored)
  /\ (truthy (trim (View.inputEl v)) = true ->
      present (companionChat p) = true ->
      Forall (fun b => View.loading b <> Some call) (View.chatDisplayArea v) ->
      exists v1,
        View.handleSendMessage_begin call p v
        = View.Calls v1 (trim (View.inputEl v))
        /\ View.inputEl v1 = []
        /\ View.chatDisplayArea v1
           = View.chatDisplayArea v ++
             [ {| View.cls := js "chat-message " ++ js "user";
                  View.sender := js "我" ++ js ":";
                  View.body := trim (View.inputEl v);
                  View.loading := None |};
               {| View.cls := js "chat-message ai loading";
                  View.sender := companionName (settings p) ++ js ":";
                  View.body := js "正在思考...";
                  View.loading := Some call |} ]
        /\ forall p' reply,
             View.chatDisplayArea
               (View.handleSendMessage_resume call p' reply v1)
             = View.chatDisplayArea v ++
               [ {| View.cls := js "chat-message " ++ js "user";
                    View.sender := js "我" ++ js ":";
                    View.body := trim (View.inputEl v);
                    View.loading := None |};
                 {| View.cls := js "chat-message " ++ js "ai";
                    View.sender := companionName (settings p') ++ js ":";
                    View.body := reply;
                    View.loading := None |} ]).
Proof.
  split.
  - intros Hblank. unfold View.handleSendMessage_begin. now rewrite Hblank.
  - intros Hmsg Hchat Hfresh. unfold View.handleSendMessage_begin.
    rewrite Hmsg, Hchat. cbn [negb].
    eexists. split; [reflexivity|]. split; [reflexivity|].
    unfold View.displayMessage. cbn [View.chatDisplayArea View.inputEl].
    split; [now rewrite <- app_assoc|].
    intros p' reply. unfold View.handleSendMessage_resume, View.displayMessage.
    cbn [View.chatDisplayArea View.inputEl].
    rewrite !filter_app, (filter_keeps_all _ _ Hfresh).
    rewrite !filter_cons, filter_nil.
    cbn [View.loading].
    destruct (decide (None <> Some call)) as [_ | Hn];
      [|exfalso; apply Hn; discriminate].
    destruct (decide (Some call <> Some call)) as [Hn | _];
      [now contradiction Hn|].
    now rewrite <- !app_assoc.
Qed.

Lemma X14_panel_send_round_trip_witness :
  View.chatDisplayArea
    (View.handleSendMessage_resume 7 (plugin (onload Sample.withKey))
       (js "hi")
       {| View.chatDisplayArea :=
            [ {| View.cls := js "chat-message user";
                 View.sender := js "我:";
                 View.body := js "hello";
                 View.loading := None |};
              {| View.cls := js "chat-message ai loading";
                 View.sender := js "阿那克萨戈拉斯:";
                 View.body := js "正在思考...";
                 View.loading := Some 7%nat |} ];
          View.inputEl := [] |})
  = [ {| View.cls := js "chat-message user";
         View.sender := js "我:";
         View.body := js "hello";
         View.loading := None |};
      {| View.cls := js "chat-message ai";
         View.sender := js "阿那克萨戈拉斯:";
         View.body := js "hi";
         View.loading := None |} ].
Proof.
  destruct (X14_panel_send_round_trip 7 (plugin (onload Sample.withKey))
              SampleMore.typed) as (_ & Hsend).
  destruct Hsend as (v1 & Hbegin & _ & _ & Hresume);
    [reflexivity | reflexivity | constructor |].
  injection Hbegin as <-.
  etransitivity; [|etransitivity]; [|exact (Hresume (plugin (onload Sample.withKey)) (js "hi"))|];
    vm_compute; reflexivity.
Defined.

(** How [loadChatHistory] is put together: the input box is kept, what was
    shown before is dropped, there is at most one bubble per entry, and the
    bubbles of two pieces of history follow each other. *)
Lemma loadChatHistory_structure (p : Plugin) (v : View.View) :
  View.inputEl (View.loadChatHistory p v) = View.inputEl v
  /\ (forall v',
        View.chatDisplayArea (View.loadChatHistory p v')
        = View.chatDisplayArea (View.loadChatHistory p v))
  /\ (List.length (View.chatDisplayArea (View.loadChatHistory p v))
      <= List.length (chatHistory p))%nat
  /\ (forall h1 h2,
        View.chatDisplayArea
          (View.loadChatHistory (with_chatHistory (h1 ++ h2) p) v)
        = View.chatDisplayArea
            (View.loadChatHistory (with_chatHistory h1 p) v)
          ++ View.chatDisplayArea
               (View.loadChatHistory (with_chatHistory h2 p) v)).
Proof.
  unfold View.loadChatHistory.
  cbn [chatHistory settings with_chatHistory].
  match goal with
  | |- context [fold_left ?g _ _] => set (f := g)
  end.
  assert (Hstep : forall acc m,
             View.inputEl (f acc m) = View.inputEl acc
             /\ exists bs, (List.length bs <= 1)%nat
                           /\ forall acc',
                                View.chatDisplayArea (f acc' m)
                                = View.chatDisplayArea acc' ++ bs).
  { intros acc m. unfold f.
    destruct (truthy _).
    - split; [reflexivity|]. eexists. split; [|intros acc'; reflexivity].
      cbn [List.length]. lia.
    - split; [reflexivity|]. exists []. split; [cbn; lia|].
      intros acc'. now rewrite app_nil_r. }
  assert (Hfold : forall h acc,
             View.inputEl (fold_left f h acc) = View.inputEl acc
             /\ exists bs, (List.length bs <= List.length h)%nat
                           /\ forall acc',
                                View.chatDisplayArea (fold_left f h acc')
                                = View.chatDisplayArea acc' ++ bs).
  { induction h as [|m h IH]; intros acc.
    - split; [reflexivity|]. exists []. split; [cbn; lia|].
      intros acc'. now rewrite app_nil_r.
    - cbn [fold_left].
      destruct (Hstep acc m) as (Hi & bs1 & Hl1 & Hb1).
      destruct (IH (f acc m)) as (Hi' & bs2 & Hl2 & Hb2).
      split; [now rewrite Hi'|].
      exists (bs1 ++ bs2). split; [rewrite length_app; cbn [List.length]; lia|].
      intros acc'. now rewrite Hb2, Hb1, app_assoc. }
  split.
  { exact (proj1 (Hfold (chatHistory p)
                    {| View.chatDisplayArea := [];
                       View.inputEl := View.inputEl v |})). }
  split; [|split].
  - intros v'.
    destruct (Hfold (chatHistory p)
                {| View.chatDisplayArea := []; View.inputEl := View.inputEl v |})
      as (_ & bs & _ & Hb).
    now rewrite !Hb.
  - destruct (Hfold (chatHistory p)
                {| View.chatDisplayArea := []; View.inputEl := View.inputEl v |})
      as (_ & bs & Hl & Hb).
    now rewrite Hb.
  - intros h1 h2. rewrite fold_left_app.
    destruct (Hfold h2
                {| View.chatDisplayArea := []; View.inputEl := View.inputEl v |})
      as (_ & bs & _ & Hb).
    now rewrite !Hb.
Qed.

(** The bubbles of a history of one entry. *)
Lemma loadChatHistory_single (p : Plugin) (v : View.View) (m : Content) :
  View.chatDisplayArea (View.loadChatHistory (with_chatHistory [m] p) v)
  = if truthy match parts m with
              | Some (pt :: _) => default (js "") (text pt)
              | _ => js ""
              end
    then [ {| View.cls :=
                js "chat-message " ++
                (if bool_decide (role m = Some (js "user"))
                 then js "user" else js "ai");
              View.sender :=
                (if bool_decide (role m = Some (js "user"))
                 then js "我" else companionName (settings p)) ++ js ":";
              View.body :=
                match parts m with
                | Some (pt :: _) => default (js "") (text pt)
                | _ => js ""
                end;
              View.loading := None |} ]
    else [].
Proof.
  unfold View.loadChatHistory.
  cbn [chatHistory settings with_chatHistory fold_left].
  destruct (truthy _); [|reflexivity].
  unfold View.displayMessage. cbn [View.chatDisplayArea app].
  now destruct (bool_decide _).
Qed.

(** X15: opening the chat panel renders the stored history.  What was shown
    before is dropped and the input box is kept.  An entry whose first part
    has a text that is not empty gets one bubble with that text: under the
    sender 我 and the class of the user when its role is user, and under the
    companion's name and the class of the companion for any other role.  An
    entry with no parts, no first part, or a first part without text gets
    none.  The bubbles of a history made of two pieces are the bubbles of
    the first followed by the bubbles of the second, so the bubbles come in
    the order of the history, and there are never more bubbles than
    entries. *)
Theorem X15_panel_renders_history (p : Plugin) (v : View.View) :
  View.inputEl (View.loadChatHistory p v) = View.inputEl v
  /\ (forall v',
        View.chatDisplayArea (View.loadChatHistory p v')
        = View.chatDisplayArea (View.loadChatHistory p v))
  /\ (List.length (View.chatDisplayArea (View.loadChatHistory p v))
      <= List.length (chatHistory p))%nat
  /\ (forall h1 h2,
        View.chatDisplayArea
          (View.loadChatHistory (with_chatHistory (h1 ++ h2) p) v)
        = View.chatDisplayArea
            (View.loadChatHistory (with_chatHistory h1 p) v)
          ++ View.chatDisplayArea
               (View.loadChatHistory (with_chatHistory h2 p) v))
  /\ View.chatDisplayArea (View.loadChatHistory (with_chatHistory [] p) v) = []
  /\ (forall m pt ps t,
        parts m = Some (pt :: ps) -> text pt = Some t -> t <> [] ->
        role m = Some (js "user") ->
        View.chatDisplayArea (View.loadChatHistory (with_chatHistory [m] p) v)
        = [ {| View.cls := js "chat-message " ++ js "user";
               View.sender := js "我" ++ js ":";
               View.body := t;
               View.loading := None |} ])
  /\ (forall m pt ps t,
        parts m = Some (pt :: ps) -> text pt = Some t -> t <> [] ->
        role m <> Some (js "user") ->
        View.chatDisplayArea (View.loadChatHistory (with_chatHistory [m] p) v)
        = [ {| View.cls := js "chat-message " ++ js "ai";
               View.sender := companionName (settings p) ++ js ":";
               View.body := t;
               View.loading := None |} ])
  /\ (forall m,
        parts m = None \/ parts m = Some []
        \/ (exists pt ps, parts m = Some (pt :: ps)
                          /\ (text pt = None \/ text pt = Some [])) ->
        View.chatDisplayArea (View.loadChatHistory (with_chatHistory [m] p) v)
        = []).
Proof.
  destruct (loadChatHistory_structure p v) as (Hinput & Hdrop & Hlen & Happ).
  split; [exact Hinput|]. split; [exact Hdrop|]. split; [exact Hlen|].
  split; [exact Happ|]. split; [reflexivity|].
  split; [|split].
  - intros m pt ps t Hparts Htext Hne Hrole.
    rewrite loadChatHistory_single, Hparts, Htext.
    cbn [default from_option id]. apply truthy_true in Hne. rewrite Hne.
    now rewrite (bool_decide_eq_true_2 _ Hrole).
  - intros m pt ps t Hparts Htext Hne Hrole.
    rewrite loadChatHistory_single, Hparts, Htext.
    cbn [default from_option id]. apply truthy_true in Hne. rewrite Hne.
    now rewrite (bool_decide_eq_false_2 _ Hrole).
  - intros m Hnone. rewrite loadChatHistory_single.
    destruct Hnone as [-> | [-> | (pt & ps & -> & [-> | ->])]]; reflexivity.
Qed.

Lemma X15_panel_renders_history_witness :
  View.chatDisplayArea
    (View.loadChatHistory
       (with_chatHistory (turn_recorded Sample.turn)
          (plugin (onload Sample.withKey)))
       SampleMore.typed)
  = [ {| View.cls := js "chat-message user";
         View.sender := js "我:";
         View.body := js "hello";
         View.loading := None |};
      {| View.cls := js "chat-message ai";
         View.sender := js "阿那克萨戈拉斯:";
         View.body := js "hi";
         View.loading := None |} ].
Proof.
  destruct (X15_panel_renders_history (plugin (onload Sample.withKey))
              SampleMore.typed)
    as (_ & _ & _ & Happ & _ & Huser & Hother & _).
  change (turn_recorded Sample.turn)
    with ([ {| role := Some (js "user");
               parts := Some [ {| text := Some Sample.hello |} ] |} ]
          ++ [ {| role := Some (js "model");
                  parts := Some [ {| text := Some (js "hi") |} ] |} ]).
  rewrite Happ.
  rewrite (Huser _ {| text := Some Sample.hello |} [] Sample.hello);
    [|reflexivity | reflexivity | discriminate | reflexivity].
  rewrite (Hother _ {| text := Some (js "hi") |} [] (js "hi"));
    [|reflexivity | reflexivity | discriminate | discriminate].
  vm_compute. reflexivity.
Defined.

(** *** Renaming the companion *)


